(** * Servicios-good: the marketplace API of [api_code/main.py]

    A shallow embedding of the request handlers of the FastAPI application
    and of the helpers they call, with the properties of its specification
    stated on them.

    What is modelled and how:
    - the Postgres store as a record of tables, each a list of rows in
      storage order; the single psycopg2 connection as a pair of stores,
      the committed one and the one the open transaction works on;
    - a handler as a computation in a state-and-exception monad over the
      connection; [try ... except] as [try_except];
    - a Python [str] that is sliced or encoded (passwords, hashes) as its
      list of code points, every other text as a [string];
    - [datetime] values as an integer count of microseconds, the clock
      ([datetime.now()]) and the salt ([bcrypt.gensalt()]) as arguments;
    - the bcrypt library as the two functions of a section;
    - prices as exact rationals; the rating average as Postgres computes
      it, a [numeric] rounded at its scale, and as Python stores it, the
      binary64 number nearest to that.

    The DDL of the database is not part of the sources: column defaults
    are parameters, and constraints the handlers do not rely on are not
    modelled.  The handlers are modelled with the connection established
    by [lifespan]; the registration of a client, which looks at it, takes
    it as it may be missing.  An upload is modelled up to the file system,
    which is a function of a section. *)

From Stdlib Require Import List String ZArith QArith Bool Lia Ascii.
From Stdlib Require Import DecimalString.
From Stdlib.Strings Require Import Byte.
Import ListNotations.
Local Open Scope string_scope.
Local Open Scope list_scope.
Local Open Scope Z_scope.

Set Implicit Arguments.

(* ================================================================= *)
(** ** Python values: text, bytes, UTF-8 *)

(** A [str] as the sequence of its code points. *)
Definition str := list Z.

Definition byte_of_Z (n : Z) : byte :=
  match Byte.of_N (Z.to_N (Z.land n 255)) with
  | Some b => b
  | None => x00
  end.

Definition Z_of_byte (b : byte) : Z := Z.of_N (Byte.to_N b).

(** Exceptions: [HTTPException] is one of them, as in FastAPI, where it is a
    subclass of [Exception]. *)
Inductive Exception :=
| HTTPException (status_code : Z) (detail : string)
| AttributeError
| UnicodeError
| ValueError
| OverflowError (msg : string)
| DatabaseError.

Inductive Result (A : Type) :=
| Ok (a : A)
| Raise (e : Exception).
Arguments Ok {A} a.
Arguments Raise {A} e.

(** [c.encode('utf-8')] for one code point: surrogates are refused. *)
Definition encode_char (c : Z) : Result (list byte) :=
  if c <? 0 then Raise UnicodeError
  else if c <? 128 then Ok [byte_of_Z c]
  else if c <? 2048 then
    Ok [byte_of_Z (Z.lor 192 (Z.shiftr c 6));
        byte_of_Z (Z.lor 128 (Z.land c 63))]
  else if (55296 <=? c) && (c <=? 57343) then Raise UnicodeError
  else if c <? 65536 then
    Ok [byte_of_Z (Z.lor 224 (Z.shiftr c 12));
        byte_of_Z (Z.lor 128 (Z.land (Z.shiftr c 6) 63));
        byte_of_Z (Z.lor 128 (Z.land c 63))]
  else if c <? 1114112 then
    Ok [byte_of_Z (Z.lor 240 (Z.shiftr c 18));
        byte_of_Z (Z.lor 128 (Z.land (Z.shiftr c 12) 63));
        byte_of_Z (Z.lor 128 (Z.land (Z.shiftr c 6) 63));
        byte_of_Z (Z.lor 128 (Z.land c 63))]
  else Raise UnicodeError.

Fixpoint encode_utf8 (s : str) : Result (list byte) :=
  match s with
  | [] => Ok []
  | c :: s' =>
      match encode_char c with
      | Raise e => Raise e
      | Ok bs =>
          match encode_utf8 s' with
          | Raise e => Raise e
          | Ok rest => Ok (bs ++ rest)
          end
      end
  end.

(** [b.decode('utf-8')], strict: continuation bytes, shortest form, no
    surrogates, nothing above U+10FFFF. *)
Definition is_cont (b : Z) : bool := (128 <=? b) && (b <? 192).

Fixpoint decode_utf8_Z (fuel : nat) (bs : list Z) : Result str :=
  match fuel with
  | O => match bs with [] => Ok [] | _ => Raise UnicodeError end
  | S fuel' =>
      match bs with
      | [] => Ok []
      | b0 :: r0 =>
          let continue (c : Z) (rest : list Z) :=
            match decode_utf8_Z fuel' rest with
            | Ok s => Ok (c :: s)
            | Raise e => Raise e
            end in
          if b0 <? 128 then continue b0 r0
          else if b0 <? 194 then Raise UnicodeError
          else if b0 <? 224 then
            match r0 with
            | b1 :: r1 =>
                if is_cont b1
                then continue (Z.lor (Z.shiftl (Z.land b0 31) 6) (Z.land b1 63)) r1
                else Raise UnicodeError
            | _ => Raise UnicodeError
            end
          else if b0 <? 240 then
            match r0 with
            | b1 :: b2 :: r2 =>
                let c := Z.lor (Z.shiftl (Z.land b0 15) 12)
                           (Z.lor (Z.shiftl (Z.land b1 63) 6) (Z.land b2 63)) in
                if is_cont b1 && is_cont b2 && (2048 <=? c)
                   && negb ((55296 <=? c) && (c <=? 57343))
                then continue c r2
                else Raise UnicodeError
            | _ => Raise UnicodeError
            end
          else if b0 <? 245 then
            match r0 with
            | b1 :: b2 :: b3 :: r3 =>
                let c := Z.lor (Z.shiftl (Z.land b0 7) 18)
                           (Z.lor (Z.shiftl (Z.land b1 63) 12)
                              (Z.lor (Z.shiftl (Z.land b2 63) 6) (Z.land b3 63))) in
                if is_cont b1 && is_cont b2 && is_cont b3
                   && (65536 <=? c) && (c <? 1114112)
                then continue c r3
                else Raise UnicodeError
            | _ => Raise UnicodeError
            end
          else Raise UnicodeError
      end
  end.

Definition decode_utf8 (bs : list byte) : Result str :=
  decode_utf8_Z (List.length bs) (map Z_of_byte bs).

(** A text literal as a [str]: for the ASCII literals of the examples. *)
Definition str_of_string (s : string) : str :=
  map (fun a => Z.of_N (N_of_ascii a)) (list_ascii_of_string s).

(* ================================================================= *)
(** ** The store: the tables the handlers read and write *)

Inductive Estado := SOLICITADO | EN_PROCESO | TERMINADO.

Module Usuario.
Record t := mk {
  id : string;
  nombre : string;
  apellidos : string;
  correo_electronico : string;
  password_hash : str;
  telefono : string;
  foto_perfil_url : option string;
  es_admin : bool;
  activo : bool;
  codigo_verificacion : option string;
  bloqueado_hasta : option Z }.
End Usuario.

Module DetalleCliente.
Record t := mk {
  usuario_id : string;
  calle : string;
  colonia : string;
  numero_exterior : string;
  numero_interior : option string;
  codigo_postal : string;
  ciudad : string;
  referencias_domicilio : option string;
  latitud : option Q;
  longitud : option Q }.
End DetalleCliente.

Module DetalleTrabajador.
Record t := mk {
  usuario_id : string;
  calificacion_promedio : Q;
  total_evaluaciones : Z;
  validado_por_admin : bool }.
End DetalleTrabajador.

Module Servicio.
Record t := mk {
  id : string;
  trabajador_id : option string;
  estado : Estado;
  precio_estimado : option Q;
  calificacion : option Z;
  resena : option string }.
End Servicio.

Module Propuesta.
Record t := mk {
  id : string;
  servicio_id : string;
  trabajador_id : string;
  precio_oferta : Q;
  mensaje : string;
  aceptada : option bool }.
End Propuesta.

Record DB := mkDB {
  usuarios : list Usuario.t;
  detalles_cliente : list DetalleCliente.t;
  detalles_trabajador : list DetalleTrabajador.t;
  servicios : list Servicio.t;
  propuestas : list Propuesta.t }.

(** The connection [db_connections["pg_conn"]]: what is committed, and what
    the statements of the open transaction have made of it. *)
Record Conn := mkConn { committed : DB; working : DB }.

(* ================================================================= *)
(** ** Handlers as computations over the connection *)

Definition M (A : Type) : Type := Conn -> Result A * Conn.

Definition ret {A} (a : A) : M A := fun c => (Ok a, c).

Definition bind {A B} (m : M A) (k : A -> M B) : M B :=
  fun c =>
    match m c with
    | (Ok a, c') => k a c'
    | (Raise e, c') => (Raise e, c')
    end.

Definition raise {A} (e : Exception) : M A := fun c => (Raise e, c).

Definition lift {A} (r : Result A) : M A := fun c => (r, c).

(** [try: body except Exception as e: handler e] *)
Definition try_except {A} (body : M A) (handler : Exception -> M A) : M A :=
  fun c =>
    match body c with
    | (Ok a, c') => (Ok a, c')
    | (Raise e, c') => handler e c'
    end.

Declare Scope py_scope.
Delimit Scope py_scope with py.
Notation "x <- m ;; k" := (bind m (fun x => k))
  (at level 61, m at next level, right associativity) : py_scope.
Notation "m ;; k" := (bind m (fun _ => k))
  (at level 61, right associativity) : py_scope.
Local Open Scope py_scope.

(** [cursor.execute] of a SELECT, of a statement that cannot fail in the
    model, and of one that can; [conn.commit()]; [conn.rollback()]. *)
Definition query {A} (q : DB -> A) : M A := fun c => (Ok (q (working c)), c).

Definition execute (stmt : DB -> DB) : M unit :=
  fun c => (Ok tt, mkConn (committed c) (stmt (working c))).

Definition execute_r (stmt : DB -> Result DB) : M unit :=
  fun c =>
    match stmt (working c) with
    | Ok db => (Ok tt, mkConn (committed c) db)
    | Raise e => (Raise e, c)
    end.

Definition commit : M unit := fun c => (Ok tt, mkConn (working c) (working c)).

Definition rollback : M unit :=
  fun c => (Ok tt, mkConn (committed c) (committed c)).

(** [cursor.fetchone()]: the first row of the result, [None] when empty. *)
Definition fetchone {A} (rows : list A) : option A := hd_error rows.

(** [UPDATE ... SET ... WHERE cond]. *)
Definition update_where {A} (cond : A -> bool) (set : A -> A) (rows : list A)
  : list A :=
  map (fun r => if cond r then set r else r) rows.

(** A column compared with a parameter that may be NULL on either side:
    [col = %s] is never true when one of them is NULL. *)
Definition eq_null (col : option string) (param : option string) : bool :=
  match col, param with
  | Some a, Some b => String.eqb a b
  | _, _ => false
  end.

(** A subquery used as an expression: NULL for no row, the value for one,
    an error of the store for more. *)
Definition scalar_subquery {A} (rows : list A) : Result (option A) :=
  match rows with
  | [] => Ok None
  | [r] => Ok (Some r)
  | _ => Raise DatabaseError
  end.

(** The weight and the first digit of a natural number in base 10000, the
    base of the digits of a [numeric]; 0 and 0 for zero. *)
Fixpoint nbase_first (fuel : nat) (n : Z) : Z * Z :=
  match fuel with
  | O => (0, n)
  | S fuel' =>
      if n <? 10000 then (0, n)
      else let (w, d) := nbase_first fuel' (n / 10000) in (w + 1, d)
  end.

Definition numeric_first (n : Z) : Z * Z :=
  nbase_first (Z.to_nat (Z.log2 (Z.abs n))) (Z.abs n).

(** The scale Postgres gives the quotient of two integers taken as
    [numeric]: sixteen significant digits at least ([select_div_scale]). *)
Definition select_div_scale (a b : Z) : Z :=
  let (w1, d1) := numeric_first a in
  let (w2, d2) := numeric_first b in
  let qweight := w1 - w2 - (if d1 <=? d2 then 1 else 0) in
  Z.min (Z.max (16 - qweight * 4) 0) 1000.

(** [a / b] to the nearest integer, a half going away from zero; [b] is
    positive. *)
Definition round_half_away (a b : Z) : Z :=
  Z.sgn a * ((2 * Z.abs a + b) / (2 * b)).

(** The quotient of two integers as a [numeric]: rounded at its scale. *)
Definition numeric_div (a b : Z) : Q :=
  let rscale := select_div_scale a b in
  Qred (Qmake (round_half_away (a * 10 ^ rscale) b) (Z.to_pos (10 ^ rscale))).

(** [AVG] of an integer column: the sum by the count, as a [numeric]; NULL
    on no row. *)
Definition AVG (xs : list Z) : option Q :=
  match xs with
  | [] => None
  | _ => Some (numeric_div (fold_right Z.add 0 xs) (Z.of_nat (List.length xs)))
  end.

(** [a / b] to the nearest integer, a half going to the even one; [a] is
    not negative and [b] is positive. *)
Definition round_half_even (a b : Z) : Z :=
  let q := a / b in
  let r2 := 2 * (a mod b) in
  if r2 <? b then q
  else if b <? r2 then q + 1
  else if Z.even q then q else q + 1.

(** [float(x)] of a [Decimal] or of the integer 0: the binary64 number
    nearest to [x], a tie going to the even mantissa, as the rational it is.
    Where Python gives an infinity, from 2^1024 on, the model has no value
    and keeps the rounding to 53 bits; the average of an integer column is
    far from it. *)
Definition float (x : Q) : Q :=
  let a := Z.abs (Qnum x) in
  let b := Z.pos (Qden x) in
  if a =? 0 then 0%Q
  else
    let e0 := Z.log2 a - Z.log2 b in
    let below := if 0 <=? e0 then a <? b * 2 ^ e0 else a * 2 ^ (- e0) <? b in
    let e := Z.max (if below then e0 - 1 else e0) (-1022) in
    let v :=
      if e <=? 52
      then Qmake (round_half_even (a * 2 ^ (52 - e)) b) (Z.to_pos (2 ^ (52 - e)))
      else inject_Z (round_half_even a (b * 2 ^ (e - 52)) * 2 ^ (e - 52)) in
    Qred (if Qnum x <? 0 then Qopp v else v).

Arguments AVG : simpl never.
Arguments float : simpl never.

Definition COUNT {A} (xs : list A) : Z := Z.of_nat (List.length xs).

(* ================================================================= *)
(** ** Section 2 of the source: the request models *)

Module DatosVerificacion.
Record t := mk { correo : string; codigo : string }.
End DatosVerificacion.

Module LoginRequest.
Record t := mk { correo : string; password : str }.
End LoginRequest.

Module PerfilClienteUpdate.
Record t := mk {
  nombre : string;
  apellidos : string;
  telefono : string;
  calle : string;
  colonia : string;
  codigo_postal : string;
  ciudad : string;
  foto_perfil_url : option string;
  password_nuevo : option str }.
End PerfilClienteUpdate.

Module CrearPropuesta.
Record t := mk {
  servicio_id : string;
  trabajador_id : string;
  precio_oferta : Q;
  mensaje : string }.
End CrearPropuesta.

Module AceptarPropuesta.
Record t := mk {
  servicio_id : string;
  trabajador_id : string;
  propuesta_id : string }.
End AceptarPropuesta.

Module CalificarServicio.
Record t := mk { servicio_id : string; calificacion : Z; resena : string }.
End CalificarServicio.

Module AccionAdmin.
Record t := mk {
  usuario_id : string;
  accion : string;
  dias_bloqueo : option Z }.

(** [dias_bloqueo: Optional[int] = 0]: a body without the key gets 0, a body
    with the key gets its value, which may be null. *)
Definition of_body (usuario_id accion : string) (dias_bloqueo : option (option Z))
  : t :=
  mk usuario_id accion
    (match dias_bloqueo with
     | None => Some 0
     | Some v => v
     end).
End AccionAdmin.

(** The JSON bodies the handlers return. *)
Inductive Response :=
| Mensaje (mensaje : string)
| LoginExitoso (id nombre : string) (es_admin es_trabajador : bool).

(** Attribute access by name on a request model: the attributes are the
    fields its class declares, grouped by their annotation; any other name
    raises [AttributeError]. *)
Fixpoint lookup_attr {A} (name : string) (campos : list (string * A))
  : option A :=
  match campos with
  | [] => None
  | (n, v) :: rest => if String.eqb n name then Some v else lookup_attr name rest
  end.

Definition getattr {A} (campos : list (string * A)) (name : string) : M A :=
  match lookup_attr name campos with
  | Some v => ret v
  | None => raise AttributeError
  end.

Definition campos_str (d : PerfilClienteUpdate.t) : list (string * string) :=
  [ ("nombre", PerfilClienteUpdate.nombre d);
    ("apellidos", PerfilClienteUpdate.apellidos d);
    ("telefono", PerfilClienteUpdate.telefono d);
    ("calle", PerfilClienteUpdate.calle d);
    ("colonia", PerfilClienteUpdate.colonia d);
    ("codigo_postal", PerfilClienteUpdate.codigo_postal d);
    ("ciudad", PerfilClienteUpdate.ciudad d) ].

Definition campos_opt_str (d : PerfilClienteUpdate.t)
  : list (string * option string) :=
  [ ("foto_perfil_url", PerfilClienteUpdate.foto_perfil_url d) ].

Definition campos_opt_password (d : PerfilClienteUpdate.t)
  : list (string * option str) :=
  [ ("password_nuevo", PerfilClienteUpdate.password_nuevo d) ].

(** [PerfilClienteUpdate] declares no number. *)
Definition campos_float (d : PerfilClienteUpdate.t)
  : list (string * option Q) := [].

(* ================================================================= *)
(** ** Dates *)

(** [str(d)] of an integer. *)
Definition str_int (d : Z) : string := NilZero.string_of_int (Z.to_int d).

(** A [datetime] as microseconds since [datetime.min]; the type ends with
    the year 9999.  [timedelta(days=d)] accepts at most 999999999 days: it
    refuses the others with one [OverflowError] when the number fits a C
    int and with another when it does not, and a sum outside the type is
    refused with a third (the texts are those of CPython's datetime). *)
Definition datetime_max : Z := 3652059 * 86400000000.

Definition timedelta_days (d : Z) : Result Z :=
  if Z.abs d <=? 999999999 then Ok (d * 86400000000)
  else if (-2147483648 <=? d) && (d <=? 2147483647)
  then Raise (OverflowError ("days=" ++ str_int d
                             ++ "; must have magnitude <= 999999999"))
  else Raise (OverflowError "Python int too large to convert to C int").

Definition datetime_add (t delta : Z) : Result Z :=
  let r := t + delta in
  if (0 <=? r) && (r <? datetime_max) then Ok r
  else Raise (OverflowError "date value out of range").

(* ================================================================= *)
(** ** Row updates: the SET clauses of the statements *)

Definition set_activo (v : bool) (u : Usuario.t) : Usuario.t :=
  Usuario.mk (Usuario.id u) (Usuario.nombre u) (Usuario.apellidos u)
    (Usuario.correo_electronico u) (Usuario.password_hash u)
    (Usuario.telefono u) (Usuario.foto_perfil_url u) (Usuario.es_admin u)
    v (Usuario.codigo_verificacion u) (Usuario.bloqueado_hasta u).

Definition set_bloqueado_hasta (v : option Z) (u : Usuario.t) : Usuario.t :=
  Usuario.mk (Usuario.id u) (Usuario.nombre u) (Usuario.apellidos u)
    (Usuario.correo_electronico u) (Usuario.password_hash u)
    (Usuario.telefono u) (Usuario.foto_perfil_url u) (Usuario.es_admin u)
    (Usuario.activo u) (Usuario.codigo_verificacion u) v.

Definition set_perfil (nombre apellidos telefono correo : string)
  (foto : option string) (u : Usuario.t) : Usuario.t :=
  Usuario.mk (Usuario.id u) nombre apellidos correo (Usuario.password_hash u)
    telefono foto (Usuario.es_admin u) (Usuario.activo u)
    (Usuario.codigo_verificacion u) (Usuario.bloqueado_hasta u).

Definition set_perfil_password (nombre apellidos telefono correo : string)
  (foto : option string) (h : str) (u : Usuario.t) : Usuario.t :=
  Usuario.mk (Usuario.id u) nombre apellidos correo h
    telefono foto (Usuario.es_admin u) (Usuario.activo u)
    (Usuario.codigo_verificacion u) (Usuario.bloqueado_hasta u).

Definition set_direccion (calle colonia codigo_postal ciudad : string)
  (numero_exterior : string) (numero_interior referencias : option string)
  (latitud longitud : option Q) (dc : DetalleCliente.t) : DetalleCliente.t :=
  DetalleCliente.mk (DetalleCliente.usuario_id dc) calle colonia
    numero_exterior numero_interior codigo_postal ciudad referencias
    latitud longitud.

Definition set_contratado (trabajador : string) (precio : option Q)
  (s : Servicio.t) : Servicio.t :=
  Servicio.mk (Servicio.id s) (Some trabajador) EN_PROCESO precio
    (Servicio.calificacion s) (Servicio.resena s).

Definition set_terminado (calificacion : Z) (resena : string)
  (s : Servicio.t) : Servicio.t :=
  Servicio.mk (Servicio.id s) (Servicio.trabajador_id s) TERMINADO
    (Servicio.precio_estimado s) (Some calificacion) (Some resena).

Definition set_aceptada (p : Propuesta.t) : Propuesta.t :=
  Propuesta.mk (Propuesta.id p) (Propuesta.servicio_id p)
    (Propuesta.trabajador_id p) (Propuesta.precio_oferta p)
    (Propuesta.mensaje p) (Some true).

Definition set_estadisticas (promedio : Q) (total : Z)
  (dt : DetalleTrabajador.t) : DetalleTrabajador.t :=
  DetalleTrabajador.mk (DetalleTrabajador.usuario_id dt) promedio total
    (DetalleTrabajador.validado_por_admin dt).

Definition set_validado (dt : DetalleTrabajador.t) : DetalleTrabajador.t :=
  DetalleTrabajador.mk (DetalleTrabajador.usuario_id dt)
    (DetalleTrabajador.calificacion_promedio dt)
    (DetalleTrabajador.total_evaluaciones dt) true.

(** One table replaced, the others kept. *)
Definition with_usuarios (f : list Usuario.t -> list Usuario.t) (db : DB) :=
  mkDB (f (usuarios db)) (detalles_cliente db) (detalles_trabajador db)
    (servicios db) (propuestas db).

Definition with_detalles_cliente
  (f : list DetalleCliente.t -> list DetalleCliente.t) (db : DB) :=
  mkDB (usuarios db) (f (detalles_cliente db)) (detalles_trabajador db)
    (servicios db) (propuestas db).

Definition with_detalles_trabajador
  (f : list DetalleTrabajador.t -> list DetalleTrabajador.t) (db : DB) :=
  mkDB (usuarios db) (detalles_cliente db) (f (detalles_trabajador db))
    (servicios db) (propuestas db).

Definition with_servicios (f : list Servicio.t -> list Servicio.t) (db : DB) :=
  mkDB (usuarios db) (detalles_cliente db) (detalles_trabajador db)
    (f (servicios db)) (propuestas db).

Definition with_propuestas (f : list Propuesta.t -> list Propuesta.t) (db : DB) :=
  mkDB (usuarios db) (detalles_cliente db) (detalles_trabajador db)
    (servicios db) (f (propuestas db)).

(** The local [password_bytes] of both password helpers:
    [password_plana[:72].encode('utf-8')], a slice of the text, then its
    encoding. *)
Definition password_bytes (password_plana : str) : Result (list byte) :=
  encode_utf8 (firstn 72 password_plana).

(** [SELECT ... FROM usuarios WHERE correo_electronico = %s] *)
Definition usuarios_por_correo (correo : string) (db : DB) : list Usuario.t :=
  filter (fun u => String.eqb (Usuario.correo_electronico u) correo)
    (usuarios db).

(** [SELECT 1 FROM propuestas WHERE servicio_id = %s AND trabajador_id = %s] *)
Definition propuestas_de (servicio trabajador : string) (db : DB)
  : list Propuesta.t :=
  filter (fun p => String.eqb (Propuesta.servicio_id p) servicio
                   && String.eqb (Propuesta.trabajador_id p) trabajador)
    (propuestas db).

(** The rows [WHERE id = %s] selects in [servicios] and in [propuestas]. *)
Definition es_servicio (id : string) (s : Servicio.t) : bool :=
  String.eqb (Servicio.id s) id.

Definition es_propuesta (id : string) (p : Propuesta.t) : bool :=
  String.eqb (Propuesta.id p) id.

(** [SELECT calificacion FROM servicios WHERE trabajador_id = %s AND
    calificacion IS NOT NULL], the rows [AVG] and [COUNT] aggregate. *)
Definition calificaciones_de (tid : option string) (filas : list Servicio.t)
  : list Z :=
  flat_map (fun s => match Servicio.calificacion s with
                     | Some c => [c]
                     | None => []
                     end)
    (filter (fun s => eq_null (Servicio.trabajador_id s) tid) filas).

(* ================================================================= *)
(** ** Sections 3 to 8 of the source: helpers and endpoints *)

Section API.

(** [bcrypt.hashpw(password, salt)] and [bcrypt.checkpw(password, hash)]:
    the library is outside the repository. *)
Variable hashpw : list byte -> list byte -> Result (list byte).
Variable checkpw : list byte -> list byte -> Result bool.

(** What the table [propuestas] gives the columns an INSERT leaves out. *)
Variable propuesta_id_default : list Propuesta.t -> string.
Variable aceptada_default : option bool.

(** [str(e)], the text of an exception. *)
Variable str_e : Exception -> string.

(** [encriptar_password]; [salt] is the value of [bcrypt.gensalt()]. *)
Definition encriptar_password (salt : list byte) (password_plana : str)
  : Result str :=
  match password_bytes password_plana with
  | Raise e => Raise e
  | Ok bytes =>
      match hashpw bytes salt with
      | Raise e => Raise e
      | Ok hashed => decode_utf8 hashed
      end
  end.

Definition verificar_password (password_plana password_hash : str)
  : Result bool :=
  match password_bytes password_plana with
  | Raise e => Raise e
  | Ok bytes =>
      match encode_utf8 password_hash with
      | Raise e => Raise e
      | Ok hash_bytes => checkpw bytes hash_bytes
      end
  end.

(** POST /verificar-cuenta *)
Definition verificar_cuenta (datos : DatosVerificacion.t) : M Response :=
  try_except
    (u <- query (fun db =>
           fetchone (usuarios_por_correo (DatosVerificacion.correo datos) db));;
     match u with
     | None => raise (HTTPException 404 "Usuario no encontrado.")
     | Some u =>
         if Usuario.activo u then ret (Mensaje "Cuenta ya activa.")
         else
           match Usuario.codigo_verificacion u with
           | Some codigo =>
               if String.eqb codigo (DatosVerificacion.codigo datos) then
                 execute (with_usuarios
                            (update_where
                               (fun r => String.eqb (Usuario.id r) (Usuario.id u))
                               (set_activo true)));;
                 commit;;
                 ret (Mensaje "¡Cuenta activada!")
               else raise (HTTPException 400 "Código incorrecto.")
           | None => raise (HTTPException 400 "Código incorrecto.")
           end
     end)
    (fun e => rollback;; raise (HTTPException 500 "Error interno.")).

(** POST /login; [now] is the value of [datetime.now()].  The lock-until
    timestamp is compared as a naive datetime, its time zone dropped. *)
Definition login (now : Z) (datos : LoginRequest.t) : M Response :=
  try_except
    (u <- query (fun db =>
           fetchone (usuarios_por_correo (LoginRequest.correo datos) db));;
     match u with
     | None => raise (HTTPException 401 "Credenciales incorrectas o inactiva.")
     | Some u =>
         (if Usuario.activo u then
            ok <- lift (verificar_password (LoginRequest.password datos)
                          (Usuario.password_hash u));;
            if ok then ret tt
            else raise (HTTPException 401 "Credenciales incorrectas o inactiva.")
          else raise (HTTPException 401 "Credenciales incorrectas o inactiva."));;
         match Usuario.bloqueado_hasta u with
         | Some bloqueo =>
             if bloqueo >? now then raise (HTTPException 403 "Cuenta bloqueada.")
             else ret tt
         | None => ret tt
         end;;
         fila <- query (fun db =>
           fetchone (filter (fun dt => String.eqb (DetalleTrabajador.usuario_id dt)
                                         (Usuario.id u))
                       (detalles_trabajador db)));;
         let es_trabajador := match fila with Some _ => true | None => false end in
         ret (LoginExitoso (Usuario.id u) (Usuario.nombre u)
                (Usuario.es_admin u) es_trabajador)
     end)
    (fun e => raise (HTTPException 500 "Error interno")).

(** PUT /mi-perfil-cliente/{usuario_id}; [salt] is the value of
    [bcrypt.gensalt()].  The arguments of a statement are evaluated, left to
    right, before [cur.execute] is called. *)
Definition update_perfil_cliente (salt : list byte) (usuario_id : string)
  (d : PerfilClienteUpdate.t) : M Response :=
  try_except
    (password_nuevo <- getattr (campos_opt_password d) "password_nuevo";;
     match password_nuevo with
     | Some (c :: resto) =>
         h <- lift (encriptar_password salt (c :: resto));;
         nombre <- getattr (campos_str d) "nombre";;
         apellidos <- getattr (campos_str d) "apellidos";;
         telefono <- getattr (campos_str d) "telefono";;
         correo <- getattr (campos_str d) "correo_electronico";;
         foto <- getattr (campos_opt_str d) "foto_perfil_url";;
         execute (with_usuarios
                    (update_where (fun r => String.eqb (Usuario.id r) usuario_id)
                       (set_perfil_password nombre apellidos telefono correo foto h)))
     | _ =>
         nombre <- getattr (campos_str d) "nombre";;
         apellidos <- getattr (campos_str d) "apellidos";;
         telefono <- getattr (campos_str d) "telefono";;
         correo <- getattr (campos_str d) "correo_electronico";;
         foto <- getattr (campos_opt_str d) "foto_perfil_url";;
         execute (with_usuarios
                    (update_where (fun r => String.eqb (Usuario.id r) usuario_id)
                       (set_perfil nombre apellidos telefono correo foto)))
     end;;
     calle <- getattr (campos_str d) "calle";;
     colonia <- getattr (campos_str d) "colonia";;
     codigo_postal <- getattr (campos_str d) "codigo_postal";;
     ciudad <- getattr (campos_str d) "ciudad";;
     numero_exterior <- getattr (campos_str d) "numero_exterior";;
     numero_interior <- getattr (campos_opt_str d) "numero_interior";;
     referencias <- getattr (campos_opt_str d) "referencias";;
     latitud <- getattr (campos_float d) "latitud";;
     longitud <- getattr (campos_float d) "longitud";;
     execute (with_detalles_cliente
                (update_where
                   (fun r => String.eqb (DetalleCliente.usuario_id r) usuario_id)
                   (set_direccion calle colonia codigo_postal ciudad
                      numero_exterior numero_interior referencias
                      latitud longitud)));;
     commit;;
     ret (Mensaje "Perfil actualizado"))
    (fun e => rollback;; raise (HTTPException 500 "Error update")).

(** POST /propuestas *)
Definition crear_propuesta (datos : CrearPropuesta.t) : M Response :=
  try_except
    (fila <- query (fun db =>
           fetchone (propuestas_de (CrearPropuesta.servicio_id datos)
                       (CrearPropuesta.trabajador_id datos) db));;
     match fila with
     | Some _ => raise (HTTPException 400 "Ya te has postulado.")
     | None => ret tt
     end;;
     execute (with_propuestas
                (fun filas =>
                   filas ++
                   [Propuesta.mk (propuesta_id_default filas)
                      (CrearPropuesta.servicio_id datos)
                      (CrearPropuesta.trabajador_id datos)
                      (CrearPropuesta.precio_oferta datos)
                      (CrearPropuesta.mensaje datos)
                      aceptada_default]));;
     commit;;
     ret (Mensaje "Propuesta enviada"))
    (fun e =>
       match e with
       | HTTPException _ _ => raise e
       | _ => rollback;; raise (HTTPException 500 "Error propuesta")
       end).

(** POST /servicios/contratar *)
Definition contratar_trabajador (datos : AceptarPropuesta.t) : M Response :=
  try_except
    (execute_r (fun db =>
        match scalar_subquery
                (filter (es_propuesta (AceptarPropuesta.propuesta_id datos))
                   (propuestas db)) with
        | Raise e => Raise e
        | Ok fila =>
            Ok (with_servicios
                  (update_where
                     (es_servicio (AceptarPropuesta.servicio_id datos))
                     (set_contratado (AceptarPropuesta.trabajador_id datos)
                        (option_map Propuesta.precio_oferta fila)))
                  db)
        end);;
     execute (with_propuestas
                (update_where
                   (es_propuesta (AceptarPropuesta.propuesta_id datos))
                   set_aceptada));;
     commit;;
     ret (Mensaje "¡Contratado!"))
    (fun e => rollback;; raise (HTTPException 500 "Error contratar")).

(** POST /servicios/finalizar *)
Definition finalizar_servicio (datos : CalificarServicio.t) : M Response :=
  let es_el_servicio := es_servicio (CalificarServicio.servicio_id datos) in
  try_except
    (execute (with_servicios
                (update_where es_el_servicio
                   (set_terminado (CalificarServicio.calificacion datos)
                      (CalificarServicio.resena datos))));;
     res <- query (fun db => fetchone (filter es_el_servicio (servicios db)));;
     match res with
     | None => raise (HTTPException 404 "Servicio no encontrado")
     | Some res =>
         let tid := Servicio.trabajador_id res in
         calificaciones <- query (fun db =>
           calificaciones_de tid (servicios db));;
         let pro := AVG calificaciones in
         let tot := COUNT calificaciones in
         execute (with_detalles_trabajador
                    (update_where
                       (fun dt => eq_null (Some (DetalleTrabajador.usuario_id dt)) tid)
                       (set_estadisticas
                          (float (match pro with Some q => q | None => 0%Q end))
                          tot)));;
         commit;;
         ret (Mensaje "Finalizado y calificado")
     end)
    (fun e => rollback;; raise (HTTPException 500 "Error finalizar")).

(** POST /admin/accion; [now] is the value of [datetime.now()]. *)
Definition admin_accion_usuario (now : Z) (datos : AccionAdmin.t) : M Response :=
  let usuario_id := AccionAdmin.usuario_id datos in
  let accion := AccionAdmin.accion datos in
  try_except
    ((if String.eqb accion "validar" then
        execute (with_detalles_trabajador
                   (update_where
                      (fun dt => String.eqb (DetalleTrabajador.usuario_id dt) usuario_id)
                      set_validado))
      else if String.eqb accion "bloquear" then
        let dias := match AccionAdmin.dias_bloqueo datos with
                    | Some d => if d =? 0 then 36500 else d
                    | None => 36500
                    end in
        delta <- lift (timedelta_days dias);;
        fecha_fin <- lift (datetime_add now delta);;
        execute (with_usuarios
                   (update_where (fun u => String.eqb (Usuario.id u) usuario_id)
                      (set_bloqueado_hasta (Some fecha_fin))))
      else if String.eqb accion "desbloquear" then
        execute (with_usuarios
                   (update_where (fun u => String.eqb (Usuario.id u) usuario_id)
                      (set_bloqueado_hasta None)))
      else if String.eqb accion "borrar" then
        (* DELETE FROM usuarios: what the foreign keys of the other tables
           do on it is the schema's, the row of [usuarios] is what goes *)
        execute (with_usuarios
                   (filter (fun u => negb (String.eqb (Usuario.id u) usuario_id))))
      else ret tt);;
     commit;;
     ret (Mensaje ("Acción '" ++ accion ++ "' ejecutada.")%string))
    (fun e => rollback;;
              raise (HTTPException 500 ("Error: " ++ str_e e)%string)).

End API.

(* ================================================================= *)
(** ** Verification codes, uploads and the registration of a client *)

(** [generar_codigo_verificacion]: [''.join(random.choices(string.digits,
    k=6))]; [random j] is the position in [string.digits] that the
    generator picks at draw [j], a number below ten. *)
Definition string_digits : list ascii := list_ascii_of_string "0123456789".

Definition generar_codigo_verificacion (random : nat -> nat) : string :=
  string_of_list_ascii
    (map (fun j => nth (random j) string_digits "0"%char) (seq 0 6)).

(** The class [[a-zA-Z0-9_.-]] of the pattern of [subir_imagen]. *)
Definition permitido (c : Z) : bool :=
  ((97 <=? c) && (c <=? 122)) || ((65 <=? c) && (c <=? 90))
  || ((48 <=? c) && (c <=? 57)) || (c =? 95) || (c =? 46) || (c =? 45).

(** [re.sub(r'[^a-zA-Z0-9_.-]', '_', filename)] *)
Definition nombre_limpio (filename : str) : str :=
  map (fun c => if permitido c then c else 95) filename.

Definition UPLOAD_DIR : str := str_of_string "uploads".

(** [os.path.join(a, b)] of [posixpath]. *)
Definition os_path_join (a b : str) : str :=
  match b with
  | 47 :: _ => b
  | _ =>
      match a with
      | [] => b
      | _ => if last a 0 =? 47 then a ++ b else a ++ 47 :: b
      end
  end.

(** [f"{generar_codigo_verificacion()}_{nombre_limpio}"] *)
Definition nombre_archivo (random : nat -> nat) (filename : str) : str :=
  str_of_string (generar_codigo_verificacion random) ++ 95 :: nombre_limpio filename.

Section Upload.

(** [open(ruta_guardado, "wb")] and [shutil.copyfileobj]: whether the file
    system took the file. *)
Variable guardar : str -> list byte -> bool.

(** POST /upload.  [filename] is [file.filename], an optional text for
    the framework; [re.sub] raises on [None].  Every exception of the body
    is answered with the same 500. *)
Definition subir_imagen (random : nat -> nat) (filename : option str)
  (contenido : list byte) : Result str :=
  match filename with
  | None => Raise (HTTPException 500 "Error subiendo imagen")
  | Some filename =>
      let nombre := nombre_archivo random filename in
      let ruta_guardado := os_path_join UPLOAD_DIR nombre in
      if guardar ruta_guardado contenido
      then Ok (str_of_string "http://localhost:8080/uploads/" ++ nombre)
      else Raise (HTTPException 500 "Error subiendo imagen")
  end.

End Upload.

Module RegistroCliente.
Record t := mk {
  nombre : string;
  apellidos : string;
  correo_electronico : string;
  password : str;
  telefono : string;
  fecha_nacimiento : Z;
  calle : string;
  colonia : string;
  numero_exterior : string;
  numero_interior : option string;
  codigo_postal : string;
  ciudad : string;
  referencias : option string;
  latitud : option Q;
  longitud : option Q }.
End RegistroCliente.

Inductive RegistroResponse :=
| Registrado (mensaje correo : string).

(** A [try] whose first handler is [except psycopg2.IntegrityError]: its
    body either returns, raises that, or raises something else. *)
Inductive Outcome (A : Type) :=
| Returned (a : A)
| RaisedIntegrityError
| RaisedOther (e : Exception).
Arguments Returned {A} a.
Arguments RaisedIntegrityError {A}.
Arguments RaisedOther {A} e.

Definition MI (A : Type) : Type := Conn -> Outcome A * Conn.

Definition retI {A} (a : A) : MI A := fun c => (Returned a, c).

Definition bindI {A B} (m : MI A) (k : A -> MI B) : MI B :=
  fun c =>
    match m c with
    | (Returned a, c') => k a c'
    | (RaisedIntegrityError, c') => (RaisedIntegrityError, c')
    | (RaisedOther e, c') => (RaisedOther e, c')
    end.

Definition liftI {A} (m : M A) : MI A :=
  fun c =>
    match m c with
    | (Ok a, c') => (Returned a, c')
    | (Raise e, c') => (RaisedOther e, c')
    end.

(** [try: body except psycopg2.IntegrityError: h1 except Exception as e:
    h2 e] *)
Definition try_except_integrity {A} (body : MI A) (on_integrity : M A)
  (on_exception : Exception -> M A) : M A :=
  fun c =>
    match body c with
    | (Returned a, c') => (Ok a, c')
    | (RaisedIntegrityError, c') => on_integrity c'
    | (RaisedOther e, c') => on_exception e c'
    end.

(** [INSERT INTO usuarios ... RETURNING id].  The email is unique in
    [usuarios], as the [ON CONFLICT (correo_electronico)] of [lifespan]
    supposes: a second row with an email of the table is refused. *)
Definition insert_usuario (fila : Usuario.t) : MI string :=
  fun c =>
    if existsb (fun u => String.eqb (Usuario.correo_electronico u)
                           (Usuario.correo_electronico fila))
         (usuarios (working c))
    then (RaisedIntegrityError, c)
    else (Returned (Usuario.id fila),
          mkConn (committed c)
            (with_usuarios (fun filas => filas ++ [fila]) (working c))).

Section Registro.

Variable hashpw : list byte -> list byte -> Result (list byte).

(** What the table [usuarios] gives the columns the INSERT leaves out. *)
Variable usuario_id_default : list Usuario.t -> string.
Variable foto_perfil_url_default : option string.
Variable es_admin_default : bool.
Variable bloqueado_hasta_default : option Z.

Variable str_e : Exception -> string.

(** POST /registro-cliente; [conn] is [db_connections.get("pg_conn")],
    [salt] the value of [bcrypt.gensalt()], [random] the draws of
    [generar_codigo_verificacion].  The birth date goes to a column that
    the model of [usuarios] does not keep. *)
Definition registrar_cliente (random : nat -> nat) (salt : list byte)
  (datos : RegistroCliente.t) (conn : option Conn)
  : Result RegistroResponse * option Conn :=
  match conn with
  | None => (Raise (HTTPException 503 "Sin BD"), None)
  | Some c =>
      let (r, c') :=
        try_except_integrity
          (bindI (liftI (lift (encriptar_password hashpw salt
                                 (RegistroCliente.password datos))))
             (fun hashed_pass =>
           let codigo := generar_codigo_verificacion random in
           bindI (fun c0 =>
                    insert_usuario
                      (Usuario.mk (usuario_id_default (usuarios (working c0)))
                         (RegistroCliente.nombre datos)
                         (RegistroCliente.apellidos datos)
                         (RegistroCliente.correo_electronico datos)
                         hashed_pass
                         (RegistroCliente.telefono datos)
                         foto_perfil_url_default es_admin_default true
                         (Some codigo) bloqueado_hasta_default) c0)
             (fun nuevo_id =>
           bindI (liftI (execute
                    (with_detalles_cliente
                       (fun filas =>
                          filas ++
                          [DetalleCliente.mk nuevo_id
                             (RegistroCliente.calle datos)
                             (RegistroCliente.colonia datos)
                             (RegistroCliente.numero_exterior datos)
                             (RegistroCliente.numero_interior datos)
                             (RegistroCliente.codigo_postal datos)
                             (RegistroCliente.ciudad datos)
                             (RegistroCliente.referencias datos)
                             (RegistroCliente.latitud datos)
                             (RegistroCliente.longitud datos)]))))
             (fun _ =>
           bindI (liftI commit)
             (fun _ =>
           retI (Registrado "Cliente registrado."
                   (RegistroCliente.correo_electronico datos)))))))
          (bind rollback
             (fun _ => raise (HTTPException 400 "Correo ya registrado.")))
          (fun e =>
             bind rollback
               (fun _ => raise (HTTPException 500
                                  ("Error: " ++ str_e e)%string)))
          c in
      (r, Some c')
  end.

End Registro.

(* ================================================================= *)
(** ** The routes *)

(** The requests of the routes above that answer with a [Response]; a
    request comes with what its handler takes from outside: the clock, the
    salt. *)
Inductive Request :=
| POST_verificar_cuenta (datos : DatosVerificacion.t)
| POST_login (now : Z) (datos : LoginRequest.t)
| PUT_mi_perfil_cliente (salt : list byte) (usuario_id : string)
    (d : PerfilClienteUpdate.t)
| POST_propuestas (datos : CrearPropuesta.t)
| POST_servicios_contratar (datos : AceptarPropuesta.t)
| POST_servicios_finalizar (datos : CalificarServicio.t)
| POST_admin_accion (now : Z) (datos : AccionAdmin.t).

Section App.

Variable hashpw : list byte -> list byte -> Result (list byte).
Variable checkpw : list byte -> list byte -> Result bool.
Variable propuesta_id_default : list Propuesta.t -> string.
Variable aceptada_default : option bool.
Variable str_e : Exception -> string.

Definition app (req : Request) : M Response :=
  match req with
  | POST_verificar_cuenta datos => verificar_cuenta datos
  | POST_login now datos => login checkpw now datos
  | PUT_mi_perfil_cliente salt usuario_id d =>
      update_perfil_cliente hashpw salt usuario_id d
  | POST_propuestas datos =>
      crear_propuesta propuesta_id_default aceptada_default datos
  | POST_servicios_contratar datos => contratar_trabajador datos
  | POST_servicios_finalizar datos => finalizar_servicio datos
  | POST_admin_accion now datos => admin_accion_usuario str_e now datos
  end.

End App.

(* ================================================================= *)
(** ** For the statements *)

(** Whether two (request, worker) pairs are the same pair. *)
Definition pair_dec (x y : string * string) : {x = y} + {x <> y}.
Proof. decide equality; apply string_dec. Defined.

(* ================================================================= *)
(** ** Stand-ins and stores of the worked examples *)

Fixpoint bytes_eqb (a b : list byte) : bool :=
  match a, b with
  | [], [] => true
  | x :: a', y :: b' => Byte.eqb x y && bytes_eqb a' b'
  | _, _ => false
  end.

(** A stand-in for bcrypt in the examples: the hash of a password is the
    password, whatever the salt. *)
Definition hashpw_plain (password salt : list byte) : Result (list byte) :=
  Ok password.

Definition checkpw_plain (password hash : list byte) : Result bool :=
  Ok (bytes_eqb password hash).

(** A stand-in for the key the table gives a new proposal: p, pp, ppp... *)
Definition propuesta_id_demo (filas : list Propuesta.t) : string :=
  string_of_list_ascii (repeat "p"%char (S (List.length filas))).

Definition str_e_demo (e : Exception) : string := "error".

Definition ana : Usuario.t :=
  Usuario.mk "u1" "Ana" "Ruiz" "ana@example.com" (str_of_string "secreto")
    "555" None false true (Some "123456") (Some 5000).

Definition beto : Usuario.t :=
  Usuario.mk "u2" "Beto" "Lara" "beto@example.com" (str_of_string "clave")
    "556" None false false (Some "654321") None.

Definition trabajador_w1 : DetalleTrabajador.t :=
  DetalleTrabajador.mk "w1" 0%Q 0 false.

Definition servicios_demo : list Servicio.t :=
  [ Servicio.mk "s1" (Some "w1") TERMINADO None (Some 5) (Some "muy bien");
    Servicio.mk "s2" (Some "w1") TERMINADO None (Some 3) (Some "regular");
    Servicio.mk "s3" (Some "w1") EN_PROCESO None None None;
    Servicio.mk "s4" None SOLICITADO None None None ].

Definition propuestas_demo : list Propuesta.t :=
  [ Propuesta.mk "p" "s4" "w1" (Qmake 250 1) "puedo hoy" None ].

Definition db_demo : DB :=
  mkDB [ana; beto] [] [trabajador_w1] servicios_demo propuestas_demo.

Definition conn_demo : Conn := mkConn db_demo db_demo.

Definition perfil_demo : PerfilClienteUpdate.t :=
  PerfilClienteUpdate.mk "Ana" "Ruiz" "555" "Reforma" "Centro" "06000"
    "CDMX" None None.

(** Thirty-seven times the letter e with an acute accent, U+00E9. *)
Definition password_acentos : str := repeat 233 37.

(** The draws 1, 2, 3, 4, 5, 6 of the generator. *)
Definition random_demo (j : nat) : nat := S j.

Definition guardar_demo (ruta : str) (contenido : list byte) : bool := true.

Definition usuario_id_demo (filas : list Usuario.t) : string :=
  string_of_list_ascii (repeat "u"%char (S (List.length filas))).

Definition registro_demo : RegistroCliente.t :=
  RegistroCliente.mk "Caro" "Paz" "caro@example.com" (str_of_string "abc123")
    "557" 0 "Juarez" "Roma" "12" None "06700" "CDMX" None None None.

(** A store with two proposals for the request s4. *)
Definition propuesta_p : Propuesta.t :=
  Propuesta.mk "p" "s4" "w1" (Qmake 250 1) "puedo hoy" None.

Definition propuesta_pp : Propuesta.t :=
  Propuesta.mk "pp" "s4" "w2" (Qmake 200 1) "puedo antes" None.

Definition conn_demo2 : Conn :=
  let db := mkDB [ana; beto] [] [trabajador_w1] servicios_demo
              [propuesta_p; propuesta_pp] in
  mkConn db db.

(** A connection with an uncommitted change of [conn_demo]: beto active. *)
Definition conn_abierta : Conn :=
  mkConn db_demo (mkDB [ana; set_activo true beto] [] [trabajador_w1]
                    servicios_demo propuestas_demo).

(** A store where two workers have rated requests and proposals: w1 with
    5 and 3 and a request under way, w2 with 1; s4 has a proposal of each
    and s3 one of w1. *)
Definition conn_demo3 : Conn :=
  let db :=
    mkDB [ana; beto] []
      [trabajador_w1; DetalleTrabajador.mk "w2" (Qmake 1 1) 1 true]
      (servicios_demo
       ++ [Servicio.mk "s5" (Some "w2") TERMINADO None (Some 1) (Some "mal")])
      [propuesta_p; propuesta_pp;
       Propuesta.mk "ppp" "s3" "w1" (Qmake 90 1) "voy" None] in
  mkConn db db.

(** A file system that refuses the paths of more than forty characters. *)
Definition guardar_corto (ruta : str) (contenido : list byte) : bool :=
  Nat.leb (List.length ruta) 40.

(* ================================================================= *)
(** ** Properties *)

(** Running a handler: the monad unfolded. *)
Ltac run :=
  unfold try_except, bind, ret, raise, lift, query, execute, execute_r,
    commit, rollback, getattr; cbn.

(** Splitting a run on everything it branches on. *)
Ltac branches :=
  repeat match goal with
         | |- context [match ?x with _ => _ end] =>
             lazymatch x with
             | context [match _ with _ => _ end] => fail
             | _ => destruct x eqn:?
             end
         end.

Example encode_e_acute : encode_utf8 [233] = Ok [xc3; xa9].
Proof. reflexivity. Qed.

Example encode_euro : encode_utf8 [8364] = Ok [xe2; x82; xac].
Proof. reflexivity. Qed.

Example encode_emoji : encode_utf8 [128640] = Ok [xf0; x9f; x9a; x80].
Proof. reflexivity. Qed.

Example encode_surrogate : encode_utf8 [97; 55296] = Raise UnicodeError.
Proof. reflexivity. Qed.

Example decode_mixed :
  decode_utf8 [x61; xc3; xa9; xe2; x82; xac; xf0; x9f; x9a; x80]
  = Ok [97; 233; 8364; 128640].
Proof. reflexivity. Qed.

Example decode_overlong : decode_utf8 [xc0; x80] = Raise UnicodeError.
Proof. reflexivity. Qed.

(* ----------------------------------------------------------------- *)
(** *** The client profile update *)

Lemma no_correo_electronico (d : PerfilClienteUpdate.t) :
  lookup_attr "correo_electronico" (campos_str d) = None.
Proof. reflexivity. Qed.

(** C1.  [update_perfil_cliente] reads [d.correo_electronico], an attribute
    [PerfilClienteUpdate] does not declare, while it builds the arguments of
    its first UPDATE: whatever the request, with or without a new password,
    no statement is executed, the handler rolls back and answers 500 with
    "Error update".  Neither the row of the user nor the address is ever
    updated. *)
Theorem update_perfil_cliente_always_500 :
  forall hashpw salt usuario_id d c,
    update_perfil_cliente hashpw salt usuario_id d c
    = (Raise (HTTPException 500 "Error update"),
       mkConn (committed c) (committed c)).
Proof.
  intros hashpw salt usuario_id d c.
  unfold update_perfil_cliente. run.
  destruct (PerfilClienteUpdate.password_nuevo d) as [[|x resto]|].
  - reflexivity.
  - destruct (encriptar_password hashpw salt (x :: resto)); reflexivity.
  - reflexivity.
Qed.

Example update_perfil_cliente_demo :
  update_perfil_cliente hashpw_plain [] "u1" perfil_demo conn_demo
  = (Raise (HTTPException 500 "Error update"), conn_demo).
Proof. reflexivity. Qed.

(* ----------------------------------------------------------------- *)
(** *** Account verification *)

(** C2.  When no user has the email, the 404 that [verificar_cuenta] raises
    is raised inside its own [try], whose [except Exception] catches it:
    the caller gets 500 "Error interno.", not the 404 of NotFound. *)
Theorem verificar_cuenta_unknown_email_500 :
  forall datos c,
    usuarios_por_correo (DatosVerificacion.correo datos) (working c) = [] ->
    verificar_cuenta datos c
    = (Raise (HTTPException 500 "Error interno."),
       mkConn (committed c) (committed c)).
Proof.
  intros datos c H.
  unfold verificar_cuenta. run. rewrite H. reflexivity.
Qed.

Lemma verificar_cuenta_unknown_email_500_witness :
  usuarios_por_correo "nadie@example.com" (working conn_demo) = []
  /\ verificar_cuenta (DatosVerificacion.mk "nadie@example.com" "123456")
       conn_demo
     = (Raise (HTTPException 500 "Error interno."),
        mkConn (committed conn_demo) (committed conn_demo)).
Proof.
  split.
  - reflexivity.
  - apply (verificar_cuenta_unknown_email_500
             (DatosVerificacion.mk "nadie@example.com" "123456") conn_demo).
    reflexivity.
Defined.

(** The same happens to the 400 of a wrong code on an inactive account. *)
Lemma verificar_cuenta_wrong_code_500 :
  forall datos c u,
    fetchone (usuarios_por_correo (DatosVerificacion.correo datos) (working c))
    = Some u ->
    Usuario.activo u = false ->
    Usuario.codigo_verificacion u <> Some (DatosVerificacion.codigo datos) ->
    verificar_cuenta datos c
    = (Raise (HTTPException 500 "Error interno."),
       mkConn (committed c) (committed c)).
Proof.
  intros datos c u Hu Hact Hcod.
  unfold verificar_cuenta. run. rewrite Hu, Hact.
  destruct (Usuario.codigo_verificacion u) as [codigo|]; [|reflexivity].
  destruct (String.eqb_spec codigo (DatosVerificacion.codigo datos)) as [->|_].
  - now elim Hcod.
  - reflexivity.
Qed.

(** The matching code of an inactive account activates it, and commits. *)
Lemma verificar_cuenta_activates :
  forall datos c u,
    fetchone (usuarios_por_correo (DatosVerificacion.correo datos) (working c))
    = Some u ->
    Usuario.activo u = false ->
    Usuario.codigo_verificacion u = Some (DatosVerificacion.codigo datos) ->
    let db' :=
      with_usuarios
        (update_where (fun r => String.eqb (Usuario.id r) (Usuario.id u))
           (set_activo true)) (working c) in
    verificar_cuenta datos c = (Ok (Mensaje "¡Cuenta activada!"), mkConn db' db').
Proof.
  intros datos c u Hu Hact Hcod.
  unfold verificar_cuenta. run. rewrite Hu, Hact, Hcod.
  rewrite String.eqb_refl. reflexivity.
Qed.

Lemma update_where_In {A} (cond : A -> bool) (set : A -> A) rows r' :
  In r' (update_where cond set rows) ->
  exists r, In r rows /\ r' = (if cond r then set r else r).
Proof.
  unfold update_where. rewrite in_map_iff.
  intros [r [E Hin]]. exists r. split; [assumption | now symmetry].
Qed.

Lemma verificar_cuenta_activates_user :
  forall datos c u u',
    fetchone (usuarios_por_correo (DatosVerificacion.correo datos) (working c))
    = Some u ->
    Usuario.activo u = false ->
    Usuario.codigo_verificacion u = Some (DatosVerificacion.codigo datos) ->
    In u' (usuarios (committed (snd (verificar_cuenta datos c)))) ->
    Usuario.id u' = Usuario.id u ->
    Usuario.activo u' = true.
Proof.
  intros datos c u u' Hu Hact Hcod Hin Hid.
  rewrite (verificar_cuenta_activates datos c Hu Hact Hcod) in Hin.
  cbn in Hin. apply update_where_In in Hin. destruct Hin as [r [_ E]].
  destruct (String.eqb_spec (Usuario.id r) (Usuario.id u)) as [_|Hne].
  - subst u'. reflexivity.
  - subst u'. contradiction.
Qed.

(* ----------------------------------------------------------------- *)
(** *** Login *)

(** Whatever goes wrong in [login], the caller sees one error: the 401 and
    the 403 are raised inside the [try] whose [except Exception] turns every
    exception into 500 "Error interno".  The connection is left as it was. *)
Lemma login_ok_or_500 :
  forall checkpw now datos c,
    (exists r, login checkpw now datos c = (Ok r, c))
    \/ login checkpw now datos c = (Raise (HTTPException 500 "Error interno"), c).
Proof.
  intros checkpw now datos c.
  unfold login. run.
  destruct (fetchone _) as [u|]; [|now right].
  destruct (Usuario.activo u); [|now right].
  destruct (verificar_password _ _ _) as [[|]|e]; try now right.
  destruct (Usuario.bloqueado_hasta u) as [t|].
  - destruct (t >? now); [now right|]. left. eexists. reflexivity.
  - left. eexists. reflexivity.
Qed.

(** C3.  A user whose lock-until timestamp is strictly after [now], logging
    in with the right email and password: [login] raises its 403 "Cuenta
    bloqueada." inside the [try], the [except Exception] of the handler
    catches it, and the caller gets 500 "Error interno", not the 403 of
    AccountLocked. *)
Theorem login_locked_500 :
  forall checkpw now datos c u t,
    fetchone (usuarios_por_correo (LoginRequest.correo datos) (working c))
    = Some u ->
    Usuario.activo u = true ->
    verificar_password checkpw (LoginRequest.password datos)
      (Usuario.password_hash u) = Ok true ->
    Usuario.bloqueado_hasta u = Some t ->
    now < t ->
    login checkpw now datos c
    = (Raise (HTTPException 500 "Error interno"), c).
Proof.
  intros checkpw now datos c u t Hu Hact Hpw Hlock Hlt.
  unfold login. run. rewrite Hu, Hact, Hpw, Hlock.
  replace (t >? now) with true by (symmetry; apply Z.gtb_lt; lia).
  reflexivity.
Qed.

Lemma login_locked_500_witness :
  let datos := LoginRequest.mk "ana@example.com" (str_of_string "secreto") in
  (fetchone (usuarios_por_correo (LoginRequest.correo datos) (working conn_demo))
   = Some ana
   /\ Usuario.activo ana = true
   /\ verificar_password checkpw_plain (LoginRequest.password datos)
        (Usuario.password_hash ana) = Ok true
   /\ Usuario.bloqueado_hasta ana = Some 5000
   /\ 1000 < 5000)
  /\ login checkpw_plain 1000 datos conn_demo
     = (Raise (HTTPException 500 "Error interno"), conn_demo).
Proof.
  intro datos. split.
  - repeat split; reflexivity.
  - apply (@login_locked_500 checkpw_plain 1000 datos conn_demo ana 5000);
      reflexivity.
Defined.

(** The rest of the sentence holds: without a lock, or once the lock-until
    timestamp is not after [now], the right credentials log in. *)
Lemma login_unlocked_ok :
  forall checkpw now datos c u,
    fetchone (usuarios_por_correo (LoginRequest.correo datos) (working c))
    = Some u ->
    Usuario.activo u = true ->
    verificar_password checkpw (LoginRequest.password datos)
      (Usuario.password_hash u) = Ok true ->
    (Usuario.bloqueado_hasta u = None
     \/ exists t, Usuario.bloqueado_hasta u = Some t /\ t <= now) ->
    exists es_trabajador,
      login checkpw now datos c
      = (Ok (LoginExitoso (Usuario.id u) (Usuario.nombre u)
               (Usuario.es_admin u) es_trabajador), c).
Proof.
  intros checkpw now datos c u Hu Hact Hpw Hlock.
  unfold login. run. rewrite Hu, Hact, Hpw.
  destruct Hlock as [-> | [t [-> Hle]]].
  - eexists. reflexivity.
  - replace (t >? now) with false
      by (symmetry; rewrite Z.gtb_ltb; apply Z.ltb_ge; lia).
    eexists. reflexivity.
Qed.

Example login_after_the_lock :
  login checkpw_plain 5000
    (LoginRequest.mk "ana@example.com" (str_of_string "secreto")) conn_demo
  = (Ok (LoginExitoso "u1" "Ana" false false), conn_demo).
Proof. reflexivity. Qed.

Example login_after_unlock :
  let c := snd (admin_accion_usuario str_e_demo 1000
                  (AccionAdmin.mk "u1" "desbloquear" None) conn_demo) in
  login checkpw_plain 1000
    (LoginRequest.mk "ana@example.com" (str_of_string "secreto")) c
  = (Ok (LoginExitoso "u1" "Ana" false false), c).
Proof. reflexivity. Qed.

(** C6.  A login with the email of a user and a password that does not
    verify, and a login with an email no user has, get the same answer:
    the same error, with the same status and the same text, and the
    connection is left as it was in both. *)
Theorem login_wrong_password_as_unknown_email :
  forall checkpw now c datos1 datos2 u,
    fetchone (usuarios_por_correo (LoginRequest.correo datos1) (working c))
    = Some u ->
    verificar_password checkpw (LoginRequest.password datos1)
      (Usuario.password_hash u) = Ok false ->
    usuarios_por_correo (LoginRequest.correo datos2) (working c) = [] ->
    login checkpw now datos1 c = login checkpw now datos2 c
    /\ exists status detail,
         fst (login checkpw now datos2 c)
         = Raise (HTTPException status detail).
Proof.
  intros checkpw now c datos1 datos2 u Hu Hpw Hnone.
  assert (H2 : login checkpw now datos2 c
               = (Raise (HTTPException 500 "Error interno"), c)).
  { unfold login. run. rewrite Hnone. reflexivity. }
  assert (H1 : login checkpw now datos1 c
               = (Raise (HTTPException 500 "Error interno"), c)).
  { unfold login. run. rewrite Hu, Hpw.
    destruct (Usuario.activo u); reflexivity. }
  rewrite H1, H2. split; [reflexivity|]. now exists 500, "Error interno".
Qed.

Lemma login_wrong_password_as_unknown_email_witness :
  let datos1 := LoginRequest.mk "ana@example.com" (str_of_string "otra") in
  let datos2 := LoginRequest.mk "nadie@example.com" (str_of_string "otra") in
  (fetchone (usuarios_por_correo (LoginRequest.correo datos1) (working conn_demo))
   = Some ana
   /\ verificar_password checkpw_plain (LoginRequest.password datos1)
        (Usuario.password_hash ana) = Ok false
   /\ usuarios_por_correo (LoginRequest.correo datos2) (working conn_demo) = [])
  /\ login checkpw_plain 1000 datos1 conn_demo
     = login checkpw_plain 1000 datos2 conn_demo.
Proof.
  intros datos1 datos2. split.
  - repeat split; reflexivity.
  - apply (@login_wrong_password_as_unknown_email checkpw_plain 1000 conn_demo
             datos1 datos2 ana); reflexivity.
Defined.

(* ----------------------------------------------------------------- *)
(** *** Proposals *)

Lemma propuestas_de_insert servicio trabajador db fila :
  Propuesta.servicio_id fila = servicio ->
  Propuesta.trabajador_id fila = trabajador ->
  propuestas_de servicio trabajador
    (with_propuestas (fun filas => filas ++ [fila]) db)
  = propuestas_de servicio trabajador db ++ [fila].
Proof.
  intros Hs Ht. unfold propuestas_de, with_propuestas. cbn.
  rewrite filter_app. cbn. rewrite Hs, Ht, !String.eqb_refl. reflexivity.
Qed.

(** A worker with a proposal on a request is refused another one, with 400
    "Ya te has postulado.", and nothing is written. *)
Lemma crear_propuesta_duplicate :
  forall gen_id acept datos c fila,
    fetchone (propuestas_de (CrearPropuesta.servicio_id datos)
                (CrearPropuesta.trabajador_id datos) (working c)) = Some fila ->
    crear_propuesta gen_id acept datos c
    = (Raise (HTTPException 400 "Ya te has postulado."), c).
Proof.
  intros gen_id acept datos c fila H.
  unfold crear_propuesta. run. rewrite H. reflexivity.
Qed.

(** The rows of a (request, worker) pair, counted on the table and as the
    handler selects them. *)
Lemma count_pair_propuestas_de servicio trabajador db :
  count_occ pair_dec
    (map (fun p => (Propuesta.servicio_id p, Propuesta.trabajador_id p))
       (propuestas db))
    (servicio, trabajador)
  = List.length (propuestas_de servicio trabajador db).
Proof.
  unfold propuestas_de.
  induction (propuestas db) as [|p filas IH]; [reflexivity|].
  cbn [map count_occ filter].
  destruct (pair_dec _ _) as [E|E];
    destruct (String.eqb_spec (Propuesta.servicio_id p) servicio) as [Es|Es];
    destruct (String.eqb_spec (Propuesta.trabajador_id p) trabajador) as [Et|Et];
    cbn [andb List.length]; try (now rewrite IH); congruence.
Qed.

(** C7.  On a store where no row of [propuestas] has the request and the
    worker of a submission, the submission succeeds and adds one row at the
    end of the table, a row of that request and that worker, the only one;
    a second submission of the same worker for the same request, whatever
    its offer and message, fails with 400 "Ya te has postulado."
    (DuplicateProposal) and leaves the store as the first one left it, so
    exactly one row of the pair exists afterwards.  What other requests the
    worker has proposals for, and who else has one for the request, does
    not matter. *)
Theorem crear_propuesta_twice :
  forall gen_id acept c datos datos',
    CrearPropuesta.servicio_id datos' = CrearPropuesta.servicio_id datos ->
    CrearPropuesta.trabajador_id datos' = CrearPropuesta.trabajador_id datos ->
    let pair_of := fun p => (Propuesta.servicio_id p, Propuesta.trabajador_id p) in
    let pair := (CrearPropuesta.servicio_id datos,
                 CrearPropuesta.trabajador_id datos) in
    count_occ pair_dec (map pair_of (propuestas (working c))) pair = 0%nat ->
    let r1 := crear_propuesta gen_id acept datos c in
    let r2 := crear_propuesta gen_id acept datos' (snd r1) in
    fst r1 = Ok (Mensaje "Propuesta enviada")
    /\ (exists fila,
          propuestas (committed (snd r1)) = propuestas (working c) ++ [fila]
          /\ pair_of fila = pair)
    /\ count_occ pair_dec (map pair_of (propuestas (committed (snd r1)))) pair
       = 1%nat
    /\ fst r2 = Raise (HTTPException 400 "Ya te has postulado.")
    /\ snd r2 = snd r1
    /\ count_occ pair_dec (map pair_of (propuestas (committed (snd r2)))) pair
       = 1%nat.
Proof.
  intros gen_id acept c datos datos' Hs Ht pair_of pair Hcount r1 r2.
  assert (Hnone : propuestas_de (CrearPropuesta.servicio_id datos)
                    (CrearPropuesta.trabajador_id datos) (working c) = []).
  { apply length_zero_iff_nil. rewrite <- count_pair_propuestas_de.
    exact Hcount. }
  set (fila := Propuesta.mk (gen_id (propuestas (working c)))
                 (CrearPropuesta.servicio_id datos)
                 (CrearPropuesta.trabajador_id datos)
                 (CrearPropuesta.precio_oferta datos)
                 (CrearPropuesta.mensaje datos) acept).
  set (db' := with_propuestas (fun filas => filas ++ [fila]) (working c)).
  assert (E1 : r1 = (Ok (Mensaje "Propuesta enviada"), mkConn db' db')).
  { unfold r1, crear_propuesta. run. rewrite Hnone. reflexivity. }
  assert (Hde : propuestas_de (CrearPropuesta.servicio_id datos)
                  (CrearPropuesta.trabajador_id datos) db' = [fila]).
  { unfold db'. rewrite propuestas_de_insert by reflexivity.
    rewrite Hnone. reflexivity. }
  assert (E2 : r2 = (Raise (HTTPException 400 "Ya te has postulado."), snd r1)).
  { unfold r2. apply crear_propuesta_duplicate with (fila := fila).
    rewrite Hs, Ht, E1. cbn [snd working]. rewrite Hde. reflexivity. }
  assert (Hone : count_occ pair_dec (map pair_of (propuestas db')) pair = 1%nat).
  { unfold pair_of, pair. rewrite count_pair_propuestas_de, Hde. reflexivity. }
  rewrite E2, E1. cbn [fst snd committed].
  split; [reflexivity|]. split; [exists fila; split; reflexivity|].
  split; [exact Hone|]. split; [reflexivity|]. split; [reflexivity|exact Hone].
Qed.

Lemma crear_propuesta_twice_witness :
  let datos := CrearPropuesta.mk "s3" "w2" (Qmake 300 1) "mañana" in
  let datos' := CrearPropuesta.mk "s3" "w2" (Qmake 280 1) "rebajo" in
  let pair_of := fun p => (Propuesta.servicio_id p, Propuesta.trabajador_id p) in
  let r1 := crear_propuesta propuesta_id_demo None datos conn_demo3 in
  let r2 := crear_propuesta propuesta_id_demo None datos' (snd r1) in
  (map pair_of (propuestas (working conn_demo3))
   = [("s4", "w1"); ("s4", "w2"); ("s3", "w1")]
   /\ count_occ pair_dec (map pair_of (propuestas (working conn_demo3)))
        ("s3", "w2") = 0%nat)
  /\ fst r1 = Ok (Mensaje "Propuesta enviada")
  /\ (exists fila,
        propuestas (committed (snd r1))
        = propuestas (working conn_demo3) ++ [fila]
        /\ pair_of fila = ("s3", "w2"))
  /\ count_occ pair_dec (map pair_of (propuestas (committed (snd r1))))
       ("s3", "w2") = 1%nat
  /\ fst r2 = Raise (HTTPException 400 "Ya te has postulado.")
  /\ snd r2 = snd r1
  /\ count_occ pair_dec (map pair_of (propuestas (committed (snd r2))))
       ("s3", "w2") = 1%nat.
Proof.
  intros datos datos' pair_of r1 r2. split.
  - split; reflexivity.
  - apply (@crear_propuesta_twice propuesta_id_demo None conn_demo3 datos datos');
      reflexivity.
Defined.

(* ----------------------------------------------------------------- *)
(** *** Hiring *)

Lemma update_where_no_row {A} (cond : A -> bool) (set : A -> A) rows :
  filter cond rows = [] -> update_where cond set rows = rows.
Proof.
  unfold update_where. induction rows as [|r rows IH]; cbn; [reflexivity|].
  destruct (cond r) eqn:E; [discriminate|].
  intro H. now rewrite IH.
Qed.

Lemma filter_update_where {A} (p cond : A -> bool) (set : A -> A) rows :
  (forall r, p (set r) = p r) ->
  filter p (update_where cond set rows) = update_where cond set (filter p rows).
Proof.
  intro Hp. unfold update_where.
  induction rows as [|r rows IH]; cbn; [reflexivity|].
  destruct (cond r) eqn:Ec.
  - rewrite Hp. destruct (p r); cbn; [rewrite Ec|]; now rewrite IH.
  - destruct (p r); cbn; [rewrite Ec|]; now rewrite IH.
Qed.

Lemma scalar_subquery_key {A} (rows : list A) :
  (List.length rows <= 1)%nat -> scalar_subquery rows = Ok (fetchone rows).
Proof.
  destruct rows as [|r [|r' rows]]; cbn; intros; try reflexivity; lia.
Qed.

(** What a hire does when at most one proposal has the given id, as the key
    of the table makes it: no row is looked for, both statements are run and
    committed. *)
Lemma contratar_trabajador_ok :
  forall datos c,
    (List.length (filter (es_propuesta (AceptarPropuesta.propuesta_id datos))
                    (propuestas (working c))) <= 1)%nat ->
    let fila :=
      fetchone (filter (es_propuesta (AceptarPropuesta.propuesta_id datos))
                  (propuestas (working c))) in
    let db' :=
      with_propuestas
        (update_where (es_propuesta (AceptarPropuesta.propuesta_id datos))
           set_aceptada)
        (with_servicios
           (update_where (es_servicio (AceptarPropuesta.servicio_id datos))
              (set_contratado (AceptarPropuesta.trabajador_id datos)
                 (option_map Propuesta.precio_oferta fila)))
           (working c)) in
    contratar_trabajador datos c = (Ok (Mensaje "¡Contratado!"), mkConn db' db').
Proof.
  intros datos c Hkey fila db'.
  unfold contratar_trabajador. run.
  rewrite (scalar_subquery_key _ Hkey). reflexivity.
Qed.

(** C9.  A hire answers with the success message and commits whether or not
    its ids have rows (at most one proposal has a given id, the key of the
    table): when the service id has no row the table of requests is left as
    it was, when the proposal id has no row the table of proposals is left
    as it was, and in both cases the response is that of a hire that found
    its rows; no 404 is raised. *)
Theorem contratar_trabajador_without_rows :
  forall datos c,
    (List.length (filter (es_propuesta (AceptarPropuesta.propuesta_id datos))
                    (propuestas (working c))) <= 1)%nat ->
    let r := contratar_trabajador datos c in
    fst r = Ok (Mensaje "¡Contratado!")
    /\ committed (snd r) = working (snd r)
    /\ (filter (es_servicio (AceptarPropuesta.servicio_id datos))
          (servicios (working c)) = [] ->
        servicios (committed (snd r)) = servicios (working c))
    /\ (filter (es_propuesta (AceptarPropuesta.propuesta_id datos))
          (propuestas (working c)) = [] ->
        propuestas (committed (snd r)) = propuestas (working c)).
Proof.
  intros datos c Hkey r.
  unfold r. rewrite (contratar_trabajador_ok datos c Hkey).
  cbn [fst snd committed working].
  repeat split.
  - intro H. cbn. now apply update_where_no_row.
  - intro H. cbn. now apply update_where_no_row.
Qed.

Lemma contratar_trabajador_without_rows_witness :
  let datos := AceptarPropuesta.mk "no-hay" "w1" "tampoco" in
  let r := contratar_trabajador datos conn_demo in
  (filter (es_servicio "no-hay") (servicios (working conn_demo)) = []
   /\ filter (es_propuesta "tampoco") (propuestas (working conn_demo)) = [])
  /\ fst r = Ok (Mensaje "¡Contratado!")
  /\ committed (snd r) = working (snd r)
  /\ servicios (committed (snd r)) = servicios (working conn_demo)
  /\ propuestas (committed (snd r)) = propuestas (working conn_demo).
Proof.
  intros datos r.
  assert (Hs : filter (es_servicio "no-hay") (servicios (working conn_demo)) = [])
    by reflexivity.
  assert (Hp : filter (es_propuesta "tampoco") (propuestas (working conn_demo)) = [])
    by reflexivity.
  destruct (@contratar_trabajador_without_rows datos conn_demo)
    as [H1 [H2 [H3 H4]]].
  - cbn. lia.
  - split; [split; assumption|].
    split; [exact H1|]. split; [exact H2|].
    split; [exact (H3 Hs) | exact (H4 Hp)].
Defined.

(* ----------------------------------------------------------------- *)
(** *** Completion and rating *)

Lemma filter_head_cond {A} (p : A -> bool) rows r resto :
  filter p rows = r :: resto -> p r = true.
Proof.
  intro H. assert (Hin : In r (filter p rows)) by (rewrite H; now left).
  apply filter_In in Hin. tauto.
Qed.

(** What a completion does on a request that exists: the request is closed
    and rated, the worker of its first row gets the aggregate of the rated
    requests of that worker, and all of it is committed. *)
Lemma finalizar_servicio_ok :
  forall datos c s resto,
    filter (es_servicio (CalificarServicio.servicio_id datos))
      (servicios (working c)) = s :: resto ->
    let db1 :=
      with_servicios
        (update_where (es_servicio (CalificarServicio.servicio_id datos))
           (set_terminado (CalificarServicio.calificacion datos)
              (CalificarServicio.resena datos)))
        (working c) in
    let tid := Servicio.trabajador_id s in
    let calificaciones := calificaciones_de tid (servicios db1) in
    let db' :=
      with_detalles_trabajador
        (update_where
           (fun dt => eq_null (Some (DetalleTrabajador.usuario_id dt)) tid)
           (set_estadisticas
              (float (match AVG calificaciones with
                      | Some q => q
                      | None => 0%Q
                      end))
              (COUNT calificaciones)))
        db1 in
    finalizar_servicio datos c
    = (Ok (Mensaje "Finalizado y calificado"), mkConn db' db').
Proof.
  intros datos c s resto H db1 tid calificaciones db'.
  unfold finalizar_servicio. run.
  rewrite filter_update_where by reflexivity.
  rewrite H. unfold update_where at 1. cbn [map].
  rewrite (filter_head_cond _ _ H). reflexivity.
Qed.

(** X22.  On an id that no request has, the 404 of the handler is caught
    by its own [except Exception]: the caller gets 500 "Error finalizar",
    and the transaction is rolled back. *)
Lemma finalizar_servicio_unknown_500 :
  forall datos c,
    filter (es_servicio (CalificarServicio.servicio_id datos))
      (servicios (working c)) = [] ->
    finalizar_servicio datos c
    = (Raise (HTTPException 500 "Error finalizar"),
       mkConn (committed c) (committed c)).
Proof.
  intros datos c H.
  unfold finalizar_servicio. run.
  rewrite filter_update_where by reflexivity.
  rewrite H. reflexivity.
Qed.

Lemma estados_after_update (id : string) (set : Servicio.t -> Servicio.t)
  (e : Estado) rows :
  (forall s, Servicio.id (set s) = Servicio.id s) ->
  (forall s, Servicio.estado (set s) = e) ->
  map (fun s => (Servicio.id s, Servicio.estado s))
    (update_where (es_servicio id) set rows)
  = map (fun s => (Servicio.id s,
                   if es_servicio id s then e else Servicio.estado s)) rows.
Proof.
  intros Hid He. unfold update_where. rewrite map_map.
  apply map_ext. intro s.
  destruct (es_servicio id s); [now rewrite Hid, He | reflexivity].
Qed.

(** C4, as the code has it.  A hire puts every request with the given id in
    EN_PROCESO and a completion puts it in TERMINADO, whatever its state
    was: neither statement looks at the state.  Every other request keeps
    its state, and no request comes or goes.  A hire commits what it does,
    and a completion that follows it finds the request in EN_PROCESO and
    leaves it in TERMINADO: the request that was SOLICITADO goes SOLICITADO,
    EN_PROCESO, TERMINADO. *)
Theorem hire_and_completion_set_the_state :
  forall datosC datosF c,
    (List.length (filter (es_propuesta (AceptarPropuesta.propuesta_id datosC))
                    (propuestas (working c))) <= 1)%nat ->
    filter (es_servicio (CalificarServicio.servicio_id datosF))
      (servicios (working c)) <> [] ->
    let rC := contratar_trabajador datosC c in
    let rF := finalizar_servicio datosF c in
    let rCF := finalizar_servicio datosF (snd rC) in
    fst rC = Ok (Mensaje "¡Contratado!")
    /\ committed (snd rC) = working (snd rC)
    /\ map (fun s => (Servicio.id s, Servicio.estado s))
         (servicios (committed (snd rC)))
       = map (fun s =>
                (Servicio.id s,
                 if es_servicio (AceptarPropuesta.servicio_id datosC) s
                 then EN_PROCESO else Servicio.estado s))
           (servicios (working c))
    /\ fst rF = Ok (Mensaje "Finalizado y calificado")
    /\ map (fun s => (Servicio.id s, Servicio.estado s))
         (servicios (committed (snd rF)))
       = map (fun s =>
                (Servicio.id s,
                 if es_servicio (CalificarServicio.servicio_id datosF) s
                 then TERMINADO else Servicio.estado s))
           (servicios (working c))
    /\ fst rCF = Ok (Mensaje "Finalizado y calificado")
    /\ committed (snd rCF) = working (snd rCF)
    /\ map (fun s => (Servicio.id s, Servicio.estado s))
         (servicios (committed (snd rCF)))
       = map (fun s =>
                (Servicio.id s,
                 if es_servicio (CalificarServicio.servicio_id datosF) s
                 then TERMINADO
                 else if es_servicio (AceptarPropuesta.servicio_id datosC) s
                      then EN_PROCESO else Servicio.estado s))
           (servicios (working c)).
Proof.
  intros datosC datosF c Hkey Hex rC rF rCF.
  assert (EC := contratar_trabajador_ok datosC c Hkey).
  cbn zeta in EC. fold rC in EC.
  destruct (filter (es_servicio (CalificarServicio.servicio_id datosF))
              (servicios (working c))) as [|s resto] eqn:Hs; [now elim Hex|].
  assert (Hs' : exists s' resto',
             filter (es_servicio (CalificarServicio.servicio_id datosF))
               (servicios (working (snd rC))) = s' :: resto').
  { rewrite EC. cbn [snd working with_propuestas with_servicios servicios].
    rewrite filter_update_where by reflexivity.
    rewrite Hs. unfold update_where. cbn [map]. eauto. }
  destruct Hs' as [s' [resto' Hs']].
  unfold rF. rewrite (finalizar_servicio_ok datosF c Hs).
  unfold rCF. rewrite (finalizar_servicio_ok datosF (snd rC) Hs').
  rewrite EC.
  cbn [fst snd committed working].
  split; [reflexivity|]. split; [reflexivity|]. split.
  { cbn [with_propuestas with_servicios servicios].
    now apply estados_after_update. }
  split; [reflexivity|]. split.
  { cbn [with_detalles_trabajador with_servicios servicios].
    now apply estados_after_update. }
  split; [reflexivity|]. split; [reflexivity|].
  cbn [with_detalles_trabajador with_propuestas with_servicios servicios].
  rewrite estados_after_update with (e := TERMINADO) by reflexivity.
  unfold update_where. rewrite map_map. apply map_ext. intro x.
  destruct (es_servicio (AceptarPropuesta.servicio_id datosC) x) eqn:EC';
    [|reflexivity].
  replace (es_servicio (CalificarServicio.servicio_id datosF)
             (set_contratado (AceptarPropuesta.trabajador_id datosC)
                (option_map Propuesta.precio_oferta
                   (fetchone
                      (filter (es_propuesta (AceptarPropuesta.propuesta_id datosC))
                         (propuestas (working c))))) x))
    with (es_servicio (CalificarServicio.servicio_id datosF) x) by reflexivity.
  reflexivity.
Qed.

Lemma hire_and_completion_set_the_state_witness :
  let datosC := AceptarPropuesta.mk "s4" "w1" "p" in
  let datosF := CalificarServicio.mk "s4" 5 "bien" in
  let rC := contratar_trabajador datosC conn_demo in
  let rF := finalizar_servicio datosF conn_demo in
  let rCF := finalizar_servicio datosF (snd rC) in
  ((List.length (filter (es_propuesta "p") (propuestas (working conn_demo)))
    <= 1)%nat
   /\ filter (es_servicio "s4") (servicios (working conn_demo)) <> []
   /\ map (fun s => (Servicio.id s, Servicio.estado s))
        (servicios (working conn_demo))
      = [("s1", TERMINADO); ("s2", TERMINADO); ("s3", EN_PROCESO);
         ("s4", SOLICITADO)])
  /\ fst rC = Ok (Mensaje "¡Contratado!")
  /\ committed (snd rC) = working (snd rC)
  /\ map (fun s => (Servicio.id s, Servicio.estado s))
       (servicios (committed (snd rC)))
     = [("s1", TERMINADO); ("s2", TERMINADO); ("s3", EN_PROCESO);
        ("s4", EN_PROCESO)]
  /\ fst rF = Ok (Mensaje "Finalizado y calificado")
  /\ map (fun s => (Servicio.id s, Servicio.estado s))
       (servicios (committed (snd rF)))
     = [("s1", TERMINADO); ("s2", TERMINADO); ("s3", EN_PROCESO);
        ("s4", TERMINADO)]
  /\ fst rCF = Ok (Mensaje "Finalizado y calificado")
  /\ committed (snd rCF) = working (snd rCF)
  /\ map (fun s => (Servicio.id s, Servicio.estado s))
       (servicios (committed (snd rCF)))
     = [("s1", TERMINADO); ("s2", TERMINADO); ("s3", EN_PROCESO);
        ("s4", TERMINADO)].
Proof.
  intros datosC datosF rC rF rCF. split.
  - split; [cbn; lia | split; [discriminate | reflexivity]].
  - apply (@hire_and_completion_set_the_state datosC datosF conn_demo).
    + cbn; lia.
    + discriminate.
Defined.

(** C4, as the specification has it, fails: a hire takes a request that is
    TERMINADO back to EN_PROCESO, and a completion takes one that is
    SOLICITADO to TERMINADO without it ever being EN_PROCESO. *)
Lemma hire_from_TERMINADO_completion_from_SOLICITADO :
  map (fun s => (Servicio.id s, Servicio.estado s))
    (servicios (committed conn_demo))
  = [("s1", TERMINADO); ("s2", TERMINADO); ("s3", EN_PROCESO);
     ("s4", SOLICITADO)]
  /\ (let r := contratar_trabajador (AceptarPropuesta.mk "s1" "w1" "p")
                 conn_demo in
      fst r = Ok (Mensaje "¡Contratado!")
      /\ map (fun s => (Servicio.id s, Servicio.estado s))
           (servicios (committed (snd r)))
         = [("s1", EN_PROCESO); ("s2", TERMINADO); ("s3", EN_PROCESO);
            ("s4", SOLICITADO)])
  /\ (let r := finalizar_servicio (CalificarServicio.mk "s4" 5 "bien")
                 conn_demo in
      fst r = Ok (Mensaje "Finalizado y calificado")
      /\ map (fun s => (Servicio.id s, Servicio.estado s))
           (servicios (committed (snd r)))
         = [("s1", TERMINADO); ("s2", TERMINADO); ("s3", EN_PROCESO);
            ("s4", TERMINADO)]).
Proof. repeat split. Qed.

Lemma calificaciones_de_cons tid s filas :
  calificaciones_de tid (s :: filas)
  = (if eq_null (Servicio.trabajador_id s) tid
     then match Servicio.calificacion s with Some c => [c] | None => [] end
     else [])
    ++ calificaciones_de tid filas.
Proof.
  unfold calificaciones_de. cbn.
  destruct (eq_null (Servicio.trabajador_id s) tid); reflexivity.
Qed.

Lemma sum_app (xs ys : list Z) :
  fold_right Z.add 0 (xs ++ ys) = fold_right Z.add 0 xs + fold_right Z.add 0 ys.
Proof. induction xs as [|x xs IH]; cbn; [reflexivity | rewrite IH; lia]. Qed.

Lemma filter_negb_no_row {A} (p : A -> bool) rows :
  filter p rows = [] -> filter (fun r => negb (p r)) rows = rows.
Proof.
  induction rows as [|r rows IH]; cbn; [reflexivity|].
  destruct (p r); [discriminate|]. cbn. intro H. now rewrite IH.
Qed.

(** The ratings the aggregate of a completion runs over: those the worker
    had on the other requests, and the new one. *)
Lemma calificaciones_after_completion id tid c r :
  forall filas s,
    filter (es_servicio id) filas = [s] ->
    Servicio.trabajador_id s = Some tid ->
    let despues :=
      calificaciones_de (Some tid)
        (update_where (es_servicio id) (set_terminado c r) filas) in
    let previas :=
      calificaciones_de (Some tid)
        (filter (fun x => negb (es_servicio id x)) filas) in
    fold_right Z.add 0 despues = fold_right Z.add 0 previas + c
    /\ List.length despues = S (List.length previas).
Proof.
  induction filas as [|x filas IH]; intros s Hs Htid; [discriminate|].
  cbn [filter] in Hs. cbn [filter update_where map].
  destruct (es_servicio id x) eqn:Ex.
  - injection Hs as -> Hnone. cbn [negb].
    fold (update_where (es_servicio id) (set_terminado c r) filas).
    rewrite (update_where_no_row _ _ _ Hnone).
    rewrite (filter_negb_no_row _ _ Hnone).
    rewrite calificaciones_de_cons. cbn [set_terminado Servicio.trabajador_id
      Servicio.calificacion]. rewrite Htid. cbn [eq_null].
    rewrite String.eqb_refl. cbn. split; lia.
  - cbn [negb].
    fold (update_where (es_servicio id) (set_terminado c r) filas).
    rewrite !calificaciones_de_cons.
    destruct (IH s Hs Htid) as [Hsum Hlen].
    rewrite !sum_app, !length_app. cbn zeta in Hsum, Hlen.
    rewrite Hsum, Hlen. split; lia.
Qed.

Lemma AVG_sum_length (xs : list Z) n :
  List.length xs = S n ->
  AVG xs = Some (numeric_div (fold_right Z.add 0 xs) (Z.of_nat (S n))).
Proof.
  intro H. destruct xs as [|x xs]; [discriminate|].
  unfold AVG. now rewrite H.
Qed.

(** The ratings of the worker on the other requests, as the handler selects
    them and as they are told row by row. *)
Lemma calificaciones_previas id tid filas :
  calificaciones_de (Some tid)
    (filter (fun x => negb (es_servicio id x)) filas)
  = flat_map
      (fun x =>
         match Servicio.trabajador_id x, Servicio.calificacion x with
         | Some w, Some n =>
             if String.eqb w tid && negb (String.eqb (Servicio.id x) id)
             then [n] else []
         | _, _ => []
         end) filas.
Proof.
  induction filas as [|x filas IH]; [reflexivity|].
  cbn [filter flat_map]. unfold es_servicio at 1.
  destruct (String.eqb (Servicio.id x) id) eqn:Eid; cbn [negb].
  - rewrite IH.
    destruct (Servicio.trabajador_id x) as [w|],
             (Servicio.calificacion x) as [n|]; try reflexivity.
    now rewrite andb_false_r.
  - rewrite calificaciones_de_cons, IH. unfold eq_null.
    destruct (Servicio.trabajador_id x) as [w|],
             (Servicio.calificacion x) as [n|]; try reflexivity.
    + rewrite andb_true_r. destruct (String.eqb w tid); reflexivity.
    + destruct (String.eqb w tid); reflexivity.
Qed.

(** C5.  Completing, with a rating, the one request that has the id, a
    request of a worker: the row of that worker in [detalles_trabajador]
    gets, committed, the average and the number of the ratings of the rated
    requests of that worker, which are those the worker had on the other
    requests and the new one.  The average is the sum by the number as
    Postgres computes it and Python stores it; the rows of the other
    workers are as they were.  With ratings 5 and 3 before and a third
    request rated 4, that is 4.0 and 3: see the example after. *)
Theorem finalizar_servicio_average :
  forall datos c s tid,
    filter (fun x => String.eqb (Servicio.id x)
                       (CalificarServicio.servicio_id datos))
      (servicios (working c)) = [s] ->
    Servicio.trabajador_id s = Some tid ->
    let previas :=
      flat_map
        (fun x =>
           match Servicio.trabajador_id x, Servicio.calificacion x with
           | Some w, Some n =>
               if String.eqb w tid
                  && negb (String.eqb (Servicio.id x)
                             (CalificarServicio.servicio_id datos))
               then [n] else []
           | _, _ => []
           end)
        (servicios (working c)) in
    let total := Z.of_nat (List.length previas) + 1 in
    let promedio :=
      float (numeric_div
               (fold_right Z.add 0 previas + CalificarServicio.calificacion datos)
               total) in
    let r := finalizar_servicio datos c in
    fst r = Ok (Mensaje "Finalizado y calificado")
    /\ map (fun dt => (DetalleTrabajador.usuario_id dt,
                       DetalleTrabajador.calificacion_promedio dt,
                       DetalleTrabajador.total_evaluaciones dt))
         (detalles_trabajador (committed (snd r)))
       = map (fun dt =>
                if String.eqb (DetalleTrabajador.usuario_id dt) tid
                then (tid, promedio, total)
                else (DetalleTrabajador.usuario_id dt,
                      DetalleTrabajador.calificacion_promedio dt,
                      DetalleTrabajador.total_evaluaciones dt))
           (detalles_trabajador (working c)).
Proof.
  intros datos c s tid Hs Htid previas total promedio r.
  change (filter (es_servicio (CalificarServicio.servicio_id datos))
            (servicios (working c)) = [s]) in Hs.
  unfold r. rewrite (finalizar_servicio_ok datos c Hs).
  cbn [fst snd committed]. split; [reflexivity|].
  cbn [with_detalles_trabajador with_servicios servicios detalles_trabajador].
  rewrite Htid.
  destruct (@calificaciones_after_completion
              (CalificarServicio.servicio_id datos) tid
              (CalificarServicio.calificacion datos)
              (CalificarServicio.resena datos) (servicios (working c)) s Hs Htid)
    as [Hsum Hlen].
  cbn zeta in Hsum, Hlen.
  rewrite calificaciones_previas in Hsum, Hlen. fold previas in Hsum, Hlen.
  rewrite (AVG_sum_length _ Hlen), Hsum.
  unfold COUNT. rewrite Hlen.
  replace (Z.of_nat (S (List.length previas))) with total
    by (unfold total; lia).
  unfold update_where. rewrite map_map. apply map_ext. intro dt.
  cbn [eq_null].
  destruct (String.eqb_spec (DetalleTrabajador.usuario_id dt) tid) as [E|_];
    [cbn; now rewrite E | reflexivity].
Qed.

Lemma finalizar_servicio_average_witness :
  let datos := CalificarServicio.mk "s3" 4 "bien" in
  let r := finalizar_servicio datos conn_demo3 in
  (filter (fun x => String.eqb (Servicio.id x) "s3")
     (servicios (working conn_demo3))
   = [Servicio.mk "s3" (Some "w1") EN_PROCESO None None None]
   /\ map (fun x => (Servicio.id x, Servicio.trabajador_id x,
                     Servicio.calificacion x))
        (servicios (working conn_demo3))
      = [("s1", Some "w1", Some 5); ("s2", Some "w1", Some 3);
         ("s3", Some "w1", None); ("s4", None, None);
         ("s5", Some "w2", Some 1)])
  /\ fst r = Ok (Mensaje "Finalizado y calificado")
  /\ map (fun dt => (DetalleTrabajador.usuario_id dt,
                     DetalleTrabajador.calificacion_promedio dt,
                     DetalleTrabajador.total_evaluaciones dt))
       (detalles_trabajador (committed (snd r)))
     = [("w1", Qmake 4 1, 3); ("w2", Qmake 1 1, 1)].
Proof.
  intros datos r. split.
  - split; reflexivity.
  - apply (@finalizar_servicio_average datos conn_demo3
             (Servicio.mk "s3" (Some "w1") EN_PROCESO None None None) "w1");
      reflexivity.
Defined.

(** An average that binary64 does not hold: 5, 3 and 3 give 11/3, which
    Postgres returns as 3.6666666666666667 and Python stores as
    3.6666666666666665. *)
Example finalizar_servicio_eleven_thirds :
  numeric_div 11 3 = Qmake 36666666666666667 10000000000000000
  /\ map (fun dt => (DetalleTrabajador.usuario_id dt,
                     DetalleTrabajador.calificacion_promedio dt,
                     DetalleTrabajador.total_evaluaciones dt))
       (detalles_trabajador
          (committed (snd (finalizar_servicio
                             (CalificarServicio.mk "s3" 3 "regular")
                             conn_demo3))))
     = [("w1", Qmake 8256599316845909 2251799813685248, 3);
        ("w2", Qmake 1 1, 1)].
Proof. split; vm_compute; reflexivity. Qed.

(* ----------------------------------------------------------------- *)
(** *** Administration: locking *)

Lemma bloqueos_after_update (id : string) (v : option Z) rows :
  map (fun u => (Usuario.id u, Usuario.bloqueado_hasta u))
    (update_where (fun u => String.eqb (Usuario.id u) id)
       (set_bloqueado_hasta v) rows)
  = map (fun u => (Usuario.id u,
                   if String.eqb (Usuario.id u) id then v
                   else Usuario.bloqueado_hasta u)) rows.
Proof.
  unfold update_where. rewrite map_map. apply map_ext. intro u.
  destruct (String.eqb (Usuario.id u) id); reflexivity.
Qed.

(** C10.  A lock with [dias_bloqueo] 0 does what a lock without
    [dias_bloqueo] does, be it a body without the key or one with a null,
    on every store and at every time.  When the clock is 36500 days or more
    before the end of [datetime], it succeeds, and the users with the id
    are locked until [now] plus 36500 days, which is not [now]. *)
Theorem admin_lock_zero_days :
  forall str_e now usuario_id c,
    0 <= now ->
    now + 36500 * 86400000000 < datetime_max ->
    let r := admin_accion_usuario str_e now
               (AccionAdmin.of_body usuario_id "bloquear" (Some (Some 0))) c in
    r = admin_accion_usuario str_e now
          (AccionAdmin.of_body usuario_id "bloquear" None) c
    /\ r = admin_accion_usuario str_e now
            (AccionAdmin.of_body usuario_id "bloquear" (Some None)) c
    /\ fst r = Ok (Mensaje "Acción 'bloquear' ejecutada.")
    /\ committed (snd r) = working (snd r)
    /\ map (fun u => (Usuario.id u, Usuario.bloqueado_hasta u))
         (usuarios (committed (snd r)))
       = map (fun u =>
                (Usuario.id u,
                 if String.eqb (Usuario.id u) usuario_id
                 then Some (now + 36500 * 86400000000)
                 else Usuario.bloqueado_hasta u))
           (usuarios (working c))
    /\ now + 36500 * 86400000000 <> now.
Proof.
  intros str_e now usuario_id c H0 Hmax r.
  split; [reflexivity|]. split; [reflexivity|].
  unfold r, admin_accion_usuario. run.
  unfold datetime_add.
  replace (0 <=? now + 3153600000000000) with true
    by (symmetry; apply Z.leb_le; lia).
  replace (now + 3153600000000000 <? datetime_max) with true
    by (symmetry; apply Z.ltb_lt; lia).
  cbn. repeat split.
  - apply bloqueos_after_update.
  - lia.
Qed.

Lemma admin_lock_zero_days_witness :
  let r := admin_accion_usuario str_e_demo 1000
             (AccionAdmin.of_body "u2" "bloquear" (Some (Some 0))) conn_demo in
  (0 <= 1000 /\ 1000 + 36500 * 86400000000 < datetime_max)
  /\ r = admin_accion_usuario str_e_demo 1000
           (AccionAdmin.of_body "u2" "bloquear" None) conn_demo
  /\ r = admin_accion_usuario str_e_demo 1000
           (AccionAdmin.of_body "u2" "bloquear" (Some None)) conn_demo
  /\ fst r = Ok (Mensaje "Acción 'bloquear' ejecutada.")
  /\ committed (snd r) = working (snd r)
  /\ map (fun u => (Usuario.id u, Usuario.bloqueado_hasta u))
       (usuarios (committed (snd r)))
     = [("u1", Some 5000); ("u2", Some 3153600000001000)]
  /\ 1000 + 36500 * 86400000000 <> 1000.
Proof.
  intro r. split.
  - split; [lia | reflexivity].
  - apply (@admin_lock_zero_days str_e_demo 1000 "u2" conn_demo);
      [lia | reflexivity].
Defined.

(** A lock with a number of days that is not 0 runs until [now] plus that
    number of days. *)
Example admin_lock_five_days :
  map (fun u => (Usuario.id u, Usuario.bloqueado_hasta u))
    (usuarios (committed (snd (admin_accion_usuario str_e_demo 1000
                                 (AccionAdmin.mk "u2" "bloquear" (Some 5))
                                 conn_demo))))
  = [("u1", Some 5000); ("u2", Some (1000 + 5 * 86400000000))].
Proof. reflexivity. Qed.

(* ----------------------------------------------------------------- *)
(** *** Passwords *)

Lemma encode_utf8_ascii (s : str) :
  Forall (fun c => 0 <= c < 128) s -> encode_utf8 s = Ok (map byte_of_Z s).
Proof.
  induction 1 as [|c s Hc _ IH]; [reflexivity|].
  cbn [encode_utf8 map]. rewrite IH. unfold encode_char.
  replace (c <? 0) with false by (symmetry; apply Z.ltb_ge; lia).
  replace (c <? 128) with true by (symmetry; apply Z.ltb_lt; lia).
  reflexivity.
Qed.

(** For a password of ASCII characters the bytes handed to bcrypt are the
    first 72 bytes of its encoding. *)
Lemma password_bytes_ascii (p : str) :
  Forall (fun c => 0 <= c < 128) p ->
  exists bs, encode_utf8 p = Ok bs /\ password_bytes p = Ok (firstn 72 bs).
Proof.
  intro H. exists (map byte_of_Z p). split.
  - now apply encode_utf8_ascii.
  - unfold password_bytes. rewrite encode_utf8_ascii.
    + now rewrite firstn_map.
    + rewrite <- (firstn_skipn 72 p) in H. now apply Forall_app in H.
Qed.

(** Two passwords with the same first 72 characters hash and verify
    alike. *)
Lemma verificar_password_first_72_characters checkpw (p1 p2 h : str) :
  firstn 72 p1 = firstn 72 p2 ->
  verificar_password checkpw p1 h = verificar_password checkpw p2 h.
Proof.
  intro H. unfold verificar_password, password_bytes. now rewrite H.
Qed.

Lemma encriptar_password_first_72_characters hashpw salt (p1 p2 : str) :
  firstn 72 p1 = firstn 72 p2 ->
  encriptar_password hashpw salt p1 = encriptar_password hashpw salt p2.
Proof.
  intro H. unfold encriptar_password, password_bytes. now rewrite H.
Qed.

(** C8.  The slice [password_plana[:72]] is taken on the text, before it is
    encoded: it keeps 72 characters, not 72 bytes.  A password of 37 times
    U+00E9 is handed whole to bcrypt, as 74 bytes, both by
    [encriptar_password] and by [verificar_password]; the first 72 bytes of
    its encoding are another byte string. *)
Theorem password_bytes_of_accents_is_74_bytes :
  let enviados := List.concat (repeat [xc3; xa9] 37) in
  password_bytes password_acentos = Ok enviados
  /\ encode_utf8 password_acentos = Ok enviados
  /\ List.length enviados = 74%nat
  /\ firstn 72 enviados <> enviados
  /\ (forall hashpw salt,
        encriptar_password hashpw salt password_acentos
        = match hashpw enviados salt with
          | Ok hashed => decode_utf8 hashed
          | Raise e => Raise e
          end)
  /\ (forall checkpw h,
        verificar_password checkpw password_acentos h
        = match encode_utf8 h with
          | Ok hash_bytes => checkpw enviados hash_bytes
          | Raise e => Raise e
          end).
Proof.
  intro enviados.
  assert (E : password_bytes password_acentos = Ok enviados) by reflexivity.
  split; [exact E|]. split; [reflexivity|]. split; [reflexivity|].
  split; [discriminate|]. split.
  - intros hashpw salt. unfold encriptar_password. rewrite E. reflexivity.
  - intros checkpw h. unfold verificar_password. rewrite E. reflexivity.
Qed.

Example encriptar_password_plain :
  encriptar_password hashpw_plain [] (str_of_string "secreto")
  = Ok (str_of_string "secreto").
Proof. reflexivity. Qed.

(** Two passwords with the same first 72 bytes, 36 times U+00E9, and then
    one more letter, a for one and b for the other: bcrypt is handed 73
    bytes of each, and the last one differs. *)
Example password_bytes_beyond_72_bytes :
  let p1 := repeat 233 36 ++ [97] in
  let p2 := repeat 233 36 ++ [98] in
  password_bytes p1 = Ok (List.concat (repeat [xc3; xa9] 36) ++ [x61])
  /\ password_bytes p2 = Ok (List.concat (repeat [xc3; xa9] 36) ++ [x62])
  /\ verificar_password checkpw_plain p1 p1 = Ok true
  /\ verificar_password checkpw_plain p2 p1 = Ok false.
Proof. repeat split. Qed.

(* ----------------------------------------------------------------- *)
(** *** Uploads and verification codes *)

Lemma string_digits_nth (n : nat) :
  (n < 10)%nat ->
  48 <= Z.of_N (N_of_ascii (nth n string_digits "0"%char)) <= 57.
Proof.
  intro H. do 10 (destruct n as [|n]; [cbn; lia|]). lia.
Qed.

Lemma codigo_as_str (random : nat -> nat) :
  str_of_string (generar_codigo_verificacion random)
  = map (fun j => Z.of_N (N_of_ascii (nth (random j) string_digits "0"%char)))
      (seq 0 6).
Proof.
  unfold str_of_string, generar_codigo_verificacion.
  rewrite list_ascii_of_string_of_list_ascii. now rewrite map_map.
Qed.

Lemma codigo_digits (random : nat -> nat) :
  (forall j, (j < 6)%nat -> (random j < 10)%nat) ->
  Forall (fun c => 48 <= c <= 57)
    (str_of_string (generar_codigo_verificacion random)).
Proof.
  intro H. rewrite codigo_as_str. apply Forall_forall. intros c Hc.
  apply in_map_iff in Hc. destruct Hc as [j [<- Hj]].
  apply string_digits_nth, H. apply in_seq in Hj. lia.
Qed.

(** X1.  A verification code is six characters, each a decimal digit,
    whatever the generator draws. *)
Theorem generar_codigo_verificacion_six_digits :
  forall random,
    (forall j, (j < 6)%nat -> (random j < 10)%nat) ->
    String.length (generar_codigo_verificacion random) = 6%nat
    /\ Forall (fun c => 48 <= c <= 57)
         (str_of_string (generar_codigo_verificacion random)).
Proof.
  intros random H. split; [reflexivity | now apply codigo_digits].
Qed.

Lemma generar_codigo_verificacion_six_digits_witness :
  (forall j, (j < 6)%nat -> (random_demo j < 10)%nat)
  /\ generar_codigo_verificacion random_demo = "123456"
  /\ String.length (generar_codigo_verificacion random_demo) = 6%nat
  /\ Forall (fun c => 48 <= c <= 57)
       (str_of_string (generar_codigo_verificacion random_demo)).
Proof.
  assert (H : forall j, (j < 6)%nat -> (random_demo j < 10)%nat)
    by (unfold random_demo; intros; lia).
  split; [exact H|]. split; [reflexivity|].
  exact (generar_codigo_verificacion_six_digits random_demo H).
Defined.

Lemma permitido_nombre_limpio (filename : str) :
  Forall (fun c => permitido c = true) (nombre_limpio filename).
Proof.
  apply Forall_forall. intros c Hc. unfold nombre_limpio in Hc.
  apply in_map_iff in Hc. destruct Hc as [x [<- _]].
  destruct (permitido x) eqn:E; [exact E | reflexivity].
Qed.

(** X2.  The cleaned name of an upload has the length of the name sent, is
    made of letters, digits, underscore, dot and hyphen only, and cleaning
    it again gives it back; a name already made of those is kept as it
    is. *)
Theorem nombre_limpio_allowed_and_stable :
  forall filename,
    List.length (nombre_limpio filename) = List.length filename
    /\ Forall (fun c => permitido c = true) (nombre_limpio filename)
    /\ nombre_limpio (nombre_limpio filename) = nombre_limpio filename
    /\ (Forall (fun c => permitido c = true) filename ->
        nombre_limpio filename = filename).
Proof.
  intro filename.
  assert (Hfix : forall f, Forall (fun c => permitido c = true) f ->
                           nombre_limpio f = f).
  { induction 1 as [|c f Hc _ IH]; [reflexivity|].
    cbn. rewrite Hc. f_equal. exact IH. }
  split; [apply length_map|].
  split; [apply permitido_nombre_limpio|].
  split; [apply Hfix, permitido_nombre_limpio | apply Hfix].
Qed.

Lemma permitido_digit (c : Z) : 48 <= c <= 57 -> permitido c = true.
Proof.
  intro H. unfold permitido.
  replace (48 <=? c) with true by (symmetry; apply Z.leb_le; lia).
  replace (c <=? 57) with true by (symmetry; apply Z.leb_le; lia).
  cbn. now rewrite !orb_true_r.
Qed.

Lemma permitido_nombre_archivo random filename :
  (forall j, (j < 6)%nat -> (random j < 10)%nat) ->
  Forall (fun c => permitido c = true) (nombre_archivo random filename).
Proof.
  intro H. unfold nombre_archivo. apply Forall_app. split.
  - eapply Forall_impl; [|exact (codigo_digits random H)].
    intros c Hc. now apply permitido_digit.
  - constructor; [reflexivity | apply permitido_nombre_limpio].
Qed.

(** X3.  When the file system takes the file, an upload is stored in the
    upload directory itself, under the six digits of its code, an
    underscore and the cleaned name: a name without a slash, whatever the
    name sent, and the URL returned ends with that same name. *)
Theorem subir_imagen_stays_in_uploads :
  forall guardar random filename contenido,
    (forall j, (j < 6)%nat -> (random j < 10)%nat) ->
    guardar (str_of_string "uploads/" ++ nombre_archivo random filename)
      contenido = true ->
    subir_imagen guardar random (Some filename) contenido
    = Ok (str_of_string "http://localhost:8080/uploads/"
          ++ nombre_archivo random filename)
    /\ os_path_join UPLOAD_DIR (nombre_archivo random filename)
       = str_of_string "uploads/" ++ nombre_archivo random filename
    /\ ~ In 47 (nombre_archivo random filename)
    /\ Forall (fun c => permitido c = true) (nombre_archivo random filename)
    /\ firstn 7 (nombre_archivo random filename)
       = str_of_string (generar_codigo_verificacion random) ++ [95].
Proof.
  intros guardar random filename contenido Hr Hg.
  pose proof (@permitido_nombre_archivo random filename Hr) as Hperm.
  assert (Hno : ~ In 47 (nombre_archivo random filename)).
  { intro Hin. rewrite Forall_forall in Hperm.
    specialize (Hperm 47 Hin). discriminate. }
  assert (Hjoin : os_path_join UPLOAD_DIR (nombre_archivo random filename)
                  = str_of_string "uploads/" ++ nombre_archivo random filename).
  { unfold os_path_join.
    destruct (nombre_archivo random filename) as [|c resto] eqn:E;
      [reflexivity|].
    destruct (Z.eq_dec c 47) as [->|Hc]; [elim Hno; now left|].
    replace (match c with 47 => c :: resto | _ => _ end)
      with (UPLOAD_DIR ++ 47 :: c :: resto).
    - reflexivity.
    - destruct c as [|p|p]; try reflexivity.
      do 6 (destruct p as [p|p|]; try reflexivity). now elim Hc. }
  split.
  - unfold subir_imagen. rewrite Hjoin, Hg. reflexivity.
  - split; [exact Hjoin|]. split; [exact Hno|]. split; [exact Hperm|].
    unfold nombre_archivo. rewrite codigo_as_str. reflexivity.
Qed.

Lemma subir_imagen_stays_in_uploads_witness :
  let filename := str_of_string "../mi foto.png" in
  ((forall j, (j < 6)%nat -> (random_demo j < 10)%nat)
   /\ guardar_demo (str_of_string "uploads/"
                    ++ nombre_archivo random_demo filename) [x00] = true)
  /\ nombre_archivo random_demo filename
     = str_of_string "123456_.._mi_foto.png"
  /\ subir_imagen guardar_demo random_demo (Some filename) [x00]
     = Ok (str_of_string "http://localhost:8080/uploads/"
           ++ nombre_archivo random_demo filename).
Proof.
  intro filename.
  assert (H : forall j, (j < 6)%nat -> (random_demo j < 10)%nat)
    by (unfold random_demo; intros; lia).
  split; [split; [exact H | reflexivity]|].
  split; [reflexivity|].
  apply (@subir_imagen_stays_in_uploads guardar_demo random_demo filename
           [x00] H eq_refl).
Defined.

Lemma ruta_guardado_in_uploads random filename :
  (forall j, (j < 6)%nat -> (random j < 10)%nat) ->
  os_path_join UPLOAD_DIR (nombre_archivo random filename)
  = str_of_string "uploads/" ++ nombre_archivo random filename.
Proof.
  intro Hr.
  pose proof (@permitido_nombre_archivo random filename Hr) as Hperm.
  unfold os_path_join.
  destruct (nombre_archivo random filename) as [|c resto]; [reflexivity|].
  inversion Hperm as [|? ? Hc _]; subst.
  destruct (Z.eq_dec c 47) as [->|Hne]; [discriminate Hc|].
  replace (match c with 47 => c :: resto | _ => _ end)
    with (UPLOAD_DIR ++ 47 :: c :: resto).
  - reflexivity.
  - destruct c as [|p|p]; try reflexivity.
    do 6 (destruct p as [p|p|]; try reflexivity). now elim Hne.
Qed.

(** X4.  An upload whose write the file system refuses, at the path the
    handler gives it, is answered 500 "Error subiendo imagen", whatever the
    file system does with other paths. *)
Theorem subir_imagen_failure :
  forall guardar random filename contenido,
    (forall j, (j < 6)%nat -> (random j < 10)%nat) ->
    guardar (str_of_string "uploads/" ++ nombre_archivo random filename)
      contenido = false ->
    subir_imagen guardar random (Some filename) contenido
    = Raise (HTTPException 500 "Error subiendo imagen").
Proof.
  intros guardar random filename contenido Hr Hg.
  unfold subir_imagen.
  rewrite (@ruta_guardado_in_uploads random filename Hr), Hg.
  reflexivity.
Qed.

Lemma subir_imagen_failure_witness :
  let largo := str_of_string "un nombre de archivo bastante largo.png" in
  ((forall j, (j < 6)%nat -> (random_demo j < 10)%nat)
   /\ guardar_corto (str_of_string "uploads/"
                     ++ nombre_archivo random_demo largo) [x00] = false
   /\ guardar_corto (str_of_string "uploads/"
                     ++ nombre_archivo random_demo (str_of_string "a.png"))
        [x00] = true)
  /\ subir_imagen guardar_corto random_demo (Some largo) [x00]
     = Raise (HTTPException 500 "Error subiendo imagen").
Proof.
  intro largo.
  assert (H : forall j, (j < 6)%nat -> (random_demo j < 10)%nat)
    by (unfold random_demo; intros; lia).
  split; [split; [exact H | split; reflexivity]|].
  exact (@subir_imagen_failure guardar_corto random_demo largo [x00] H
           eq_refl).
Defined.

(* ----------------------------------------------------------------- *)
(** *** Administration: the four actions and the others *)

(** X5.  An action that is none of the four is accepted: nothing is
    changed, the transaction is committed as it is, and the answer is the
    success message with the name of the action. *)
Theorem admin_accion_unknown_is_accepted :
  forall str_e now datos c,
    AccionAdmin.accion datos <> "validar" ->
    AccionAdmin.accion datos <> "bloquear" ->
    AccionAdmin.accion datos <> "desbloquear" ->
    AccionAdmin.accion datos <> "borrar" ->
    admin_accion_usuario str_e now datos c
    = (Ok (Mensaje ("Acción '" ++ AccionAdmin.accion datos
                    ++ "' ejecutada.")%string),
       mkConn (working c) (working c)).
Proof.
  intros str_e now datos c H1 H2 H3 H4.
  unfold admin_accion_usuario. run.
  apply String.eqb_neq in H1, H2, H3, H4.
  rewrite H1, H2, H3, H4. reflexivity.
Qed.

Lemma admin_accion_unknown_is_accepted_witness :
  admin_accion_usuario str_e_demo 1000
    (AccionAdmin.mk "u1" "promover" None) conn_demo
  = (Ok (Mensaje "Acción 'promover' ejecutada."), conn_demo).
Proof.
  apply (@admin_accion_unknown_is_accepted str_e_demo 1000
           (AccionAdmin.mk "u1" "promover" None) conn_demo); discriminate.
Defined.

(** What a lock does when the date it computes exists. *)
Lemma admin_bloquear_ok :
  forall str_e now usuario_id d c,
    d <> 0 ->
    Z.abs d <= 999999999 ->
    0 <= now + d * 86400000000 < datetime_max ->
    let db' :=
      with_usuarios
        (update_where (fun u => String.eqb (Usuario.id u) usuario_id)
           (set_bloqueado_hasta (Some (now + d * 86400000000))))
        (working c) in
    admin_accion_usuario str_e now
      (AccionAdmin.mk usuario_id "bloquear" (Some d)) c
    = (Ok (Mensaje "Acción 'bloquear' ejecutada."), mkConn db' db').
Proof.
  intros str_e now usuario_id d c Hd Habs Hrange db'.
  unfold admin_accion_usuario. run.
  replace (d =? 0) with false by (symmetry; apply Z.eqb_neq; exact Hd).
  unfold timedelta_days.
  replace (Z.abs d <=? 999999999) with true by (symmetry; apply Z.leb_le; lia).
  cbn. unfold datetime_add.
  replace (0 <=? now + d * 86400000000) with true
    by (symmetry; apply Z.leb_le; lia).
  replace (now + d * 86400000000 <? datetime_max) with true
    by (symmetry; apply Z.ltb_lt; lia).
  reflexivity.
Qed.

(** X6.  A lock with a number of days that is not 0 locks the users with
    the id until [now] plus that number of days, and nobody else; the
    number may be negative, and the date is then before [now]. *)
Theorem admin_lock_days :
  forall str_e now usuario_id d c,
    d <> 0 ->
    Z.abs d <= 999999999 ->
    0 <= now + d * 86400000000 < datetime_max ->
    let r := admin_accion_usuario str_e now
               (AccionAdmin.mk usuario_id "bloquear" (Some d)) c in
    fst r = Ok (Mensaje "Acción 'bloquear' ejecutada.")
    /\ committed (snd r) = working (snd r)
    /\ map (fun u => (Usuario.id u, Usuario.bloqueado_hasta u))
         (usuarios (committed (snd r)))
       = map (fun u =>
                (Usuario.id u,
                 if String.eqb (Usuario.id u) usuario_id
                 then Some (now + d * 86400000000)
                 else Usuario.bloqueado_hasta u))
           (usuarios (working c)).
Proof.
  intros str_e now usuario_id d c Hd Habs Hrange r.
  unfold r. rewrite (@admin_bloquear_ok str_e now usuario_id d c Hd Habs Hrange).
  cbn [fst snd committed working]. repeat split.
  cbn [with_usuarios usuarios]. apply bloqueos_after_update.
Qed.

Lemma admin_lock_days_witness :
  let r := admin_accion_usuario str_e_demo 1000000000000
             (AccionAdmin.mk "u2" "bloquear" (Some (-1))) conn_demo in
  (-1 <> 0 /\ Z.abs (-1) <= 999999999
   /\ 0 <= 1000000000000 + -1 * 86400000000 < datetime_max)
  /\ fst r = Ok (Mensaje "Acción 'bloquear' ejecutada.")
  /\ committed (snd r) = working (snd r)
  /\ map (fun u => (Usuario.id u, Usuario.bloqueado_hasta u))
       (usuarios (committed (snd r)))
     = [("u1", Some 5000); ("u2", Some 913600000000)].
Proof.
  intro r.
  assert (H1 : -1 <> 0) by discriminate.
  assert (H2 : Z.abs (-1) <= 999999999) by (cbn; lia).
  assert (H3 : 0 <= 1000000000000 + -1 * 86400000000 < datetime_max)
    by (unfold datetime_max; lia).
  split; [auto|].
  exact (@admin_lock_days str_e_demo 1000000000000 "u2" (-1) conn_demo
           H1 H2 H3).
Defined.

Example overflow_messages :
  timedelta_days 1000000000
  = Raise (OverflowError
             "days=1000000000; must have magnitude <= 999999999")
  /\ timedelta_days (-1000000000)
     = Raise (OverflowError
                "days=-1000000000; must have magnitude <= 999999999")
  /\ timedelta_days (10 ^ 30)
     = Raise (OverflowError "Python int too large to convert to C int")
  /\ datetime_add 1000 (-1001)
     = Raise (OverflowError "date value out of range").
Proof. repeat split; reflexivity. Qed.

(** X7.  A lock whose number of days [timedelta] refuses, or whose date
    falls outside [datetime], locks nobody: the transaction is rolled back
    and the answer is a 500. *)
Theorem admin_lock_overflow_500 :
  forall str_e now usuario_id d c,
    d <> 0 ->
    (999999999 < Z.abs d
     \/ now + d * 86400000000 < 0
     \/ datetime_max <= now + d * 86400000000) ->
    exists detail,
      admin_accion_usuario str_e now
        (AccionAdmin.mk usuario_id "bloquear" (Some d)) c
      = (Raise (HTTPException 500 detail), mkConn (committed c) (committed c)).
Proof.
  intros str_e now usuario_id d c Hd Hover.
  unfold admin_accion_usuario. run.
  replace (d =? 0) with false by (symmetry; apply Z.eqb_neq; exact Hd).
  unfold timedelta_days.
  destruct (Z.abs d <=? 999999999) eqn:Habs.
  - apply Z.leb_le in Habs. cbn. unfold datetime_add.
    destruct Hover as [H | [H | H]]; [lia | |].
    + replace (0 <=? now + d * 86400000000) with false
        by (symmetry; apply Z.leb_gt; lia).
      eexists. reflexivity.
    + replace (now + d * 86400000000 <? datetime_max) with false
        by (symmetry; apply Z.ltb_ge; lia).
      rewrite andb_false_r. eexists. reflexivity.
  - destruct ((-2147483648 <=? d) && (d <=? 2147483647));
      eexists; reflexivity.
Qed.

Lemma admin_lock_overflow_500_witness :
  (1000000000 <> 0
   /\ (999999999 < Z.abs 1000000000
       \/ 1000 + 1000000000 * 86400000000 < 0
       \/ datetime_max <= 1000 + 1000000000 * 86400000000))
  /\ exists detail,
       admin_accion_usuario str_e_demo 1000
         (AccionAdmin.mk "u2" "bloquear" (Some 1000000000)) conn_demo
       = (Raise (HTTPException 500 detail), conn_demo).
Proof.
  assert (H1 : 1000000000 <> 0) by discriminate.
  assert (H2 : 999999999 < Z.abs 1000000000
               \/ 1000 + 1000000000 * 86400000000 < 0
               \/ datetime_max <= 1000 + 1000000000 * 86400000000)
    by (left; cbn; lia).
  split; [auto|].
  exact (@admin_lock_overflow_500 str_e_demo 1000 "u2" 1000000000 conn_demo
           H1 H2).
Defined.

(* ----------------------------------------------------------------- *)
(** *** Login after an action on the account *)

Lemma fetchone_update_where {A} (cond : A -> bool) (set : A -> A) rows :
  fetchone (update_where cond set rows)
  = option_map (fun r => if cond r then set r else r) (fetchone rows).
Proof. destruct rows; reflexivity. Qed.

Lemma fetch_user_after_update (set : Usuario.t -> Usuario.t) correo db u :
  (forall x, Usuario.correo_electronico (set x) = Usuario.correo_electronico x) ->
  fetchone (usuarios_por_correo correo db) = Some u ->
  fetchone (usuarios_por_correo correo
              (with_usuarios
                 (update_where
                    (fun r => String.eqb (Usuario.id r) (Usuario.id u)) set)
                 db))
  = Some (set u).
Proof.
  intros Hset Hu. unfold usuarios_por_correo, with_usuarios. cbn [usuarios].
  rewrite filter_update_where by (intro x; now rewrite Hset).
  rewrite fetchone_update_where.
  unfold usuarios_por_correo in Hu. rewrite Hu. cbn.
  now rewrite String.eqb_refl.
Qed.

Lemma existsb_fetchone {A} (p : A -> bool) rows :
  match fetchone (filter p rows) with Some _ => true | None => false end
  = existsb p rows.
Proof.
  induction rows as [|r rows IH]; [reflexivity|].
  cbn. destruct (p r); [reflexivity | exact IH].
Qed.

(** The answer of [login] to the right credentials, by the lock. *)
Lemma login_by_the_lock :
  forall checkpw now datos c u,
    fetchone (usuarios_por_correo (LoginRequest.correo datos) (working c))
    = Some u ->
    Usuario.activo u = true ->
    verificar_password checkpw (LoginRequest.password datos)
      (Usuario.password_hash u) = Ok true ->
    login checkpw now datos c
    = (match Usuario.bloqueado_hasta u with
       | Some t =>
           if t >? now then Raise (HTTPException 500 "Error interno")
           else Ok (LoginExitoso (Usuario.id u) (Usuario.nombre u)
                      (Usuario.es_admin u)
                      (existsb (fun dt => String.eqb
                                            (DetalleTrabajador.usuario_id dt)
                                            (Usuario.id u))
                         (detalles_trabajador (working c))))
       | None =>
           Ok (LoginExitoso (Usuario.id u) (Usuario.nombre u)
                 (Usuario.es_admin u)
                 (existsb (fun dt => String.eqb
                                       (DetalleTrabajador.usuario_id dt)
                                       (Usuario.id u))
                    (detalles_trabajador (working c))))
       end, c).
Proof.
  intros checkpw now datos c u Hu Hact Hpw.
  unfold login. run. rewrite Hu, Hact, Hpw.
  destruct (Usuario.bloqueado_hasta u) as [t|].
  - destruct (t >? now); [reflexivity|]. now rewrite existsb_fetchone.
  - now rewrite existsb_fetchone.
Qed.

(** X8.  The right credentials of an active user that is not locked at
    the time log in, and the flag [es_trabajador] of the answer says
    whether [detalles_trabajador] has a row of the user. *)
Theorem login_es_trabajador :
  forall checkpw now datos c u,
    fetchone (usuarios_por_correo (LoginRequest.correo datos) (working c))
    = Some u ->
    Usuario.activo u = true ->
    verificar_password checkpw (LoginRequest.password datos)
      (Usuario.password_hash u) = Ok true ->
    (forall t, Usuario.bloqueado_hasta u = Some t -> t <= now) ->
    login checkpw now datos c
    = (Ok (LoginExitoso (Usuario.id u) (Usuario.nombre u) (Usuario.es_admin u)
             (existsb (fun dt => String.eqb (DetalleTrabajador.usuario_id dt)
                                   (Usuario.id u))
                (detalles_trabajador (working c)))), c).
Proof.
  intros checkpw now datos c u Hu Hact Hpw Hlock.
  rewrite (login_by_the_lock checkpw now datos c Hu Hact Hpw).
  destruct (Usuario.bloqueado_hasta u) as [t|]; [|reflexivity].
  replace (t >? now) with false; [reflexivity|].
  symmetry. rewrite Z.gtb_ltb. apply Z.ltb_ge. now apply Hlock.
Qed.

Lemma login_es_trabajador_witness :
  let datos := LoginRequest.mk "ana@example.com" (str_of_string "secreto") in
  (fetchone (usuarios_por_correo (LoginRequest.correo datos) (working conn_demo))
   = Some ana
   /\ Usuario.activo ana = true
   /\ verificar_password checkpw_plain (LoginRequest.password datos)
        (Usuario.password_hash ana) = Ok true
   /\ (forall t, Usuario.bloqueado_hasta ana = Some t -> t <= 6000))
  /\ login checkpw_plain 6000 datos conn_demo
     = (Ok (LoginExitoso "u1" "Ana" false false), conn_demo).
Proof.
  intro datos.
  assert (H : forall t, Usuario.bloqueado_hasta ana = Some t -> t <= 6000).
  { intros t Ht. injection Ht as <-. lia. }
  split; [repeat split; try reflexivity; exact H|].
  exact (@login_es_trabajador checkpw_plain 6000 datos conn_demo ana
           eq_refl eq_refl eq_refl H).
Defined.

(** X18.  A login only reads: the connection after it is the connection
    before it, whether it succeeds or fails; and it has one error for every
    failure, 500 "Error interno". *)
Theorem login_reads_only :
  forall checkpw now datos c,
    snd (login checkpw now datos c) = c
    /\ (forall e, fst (login checkpw now datos c) = Raise e ->
                  e = HTTPException 500 "Error interno").
Proof.
  intros checkpw now datos c.
  destruct (login_ok_or_500 checkpw now datos c) as [[r ->] | ->];
    (split; [reflexivity|]); cbn; intros e H;
    [discriminate H | now injection H as <-].
Qed.

(** X9.  An account that is not active cannot log in, whatever the
    password: the answer is the 500 of every failed login. *)
Theorem login_inactive_500 :
  forall checkpw now datos c u,
    fetchone (usuarios_por_correo (LoginRequest.correo datos) (working c))
    = Some u ->
    Usuario.activo u = false ->
    login checkpw now datos c
    = (Raise (HTTPException 500 "Error interno"), c).
Proof.
  intros checkpw now datos c u Hu Hact.
  unfold login. run. rewrite Hu, Hact. reflexivity.
Qed.

Lemma login_inactive_500_witness :
  let datos := LoginRequest.mk "beto@example.com" (str_of_string "clave") in
  (fetchone (usuarios_por_correo (LoginRequest.correo datos) (working conn_demo))
   = Some beto
   /\ Usuario.activo beto = false)
  /\ login checkpw_plain 1000 datos conn_demo
     = (Raise (HTTPException 500 "Error interno"), conn_demo).
Proof.
  intro datos. split; [split; reflexivity|].
  exact (@login_inactive_500 checkpw_plain 1000 datos conn_demo beto
           eq_refl eq_refl).
Defined.

(** X10.  Only the first 72 characters of a password count: two logins
    with the same email whose passwords agree on them get the same
    answer. *)
Theorem login_ignores_password_beyond_72_characters :
  forall checkpw now c correo p1 p2,
    firstn 72 p1 = firstn 72 p2 ->
    login checkpw now (LoginRequest.mk correo p1) c
    = login checkpw now (LoginRequest.mk correo p2) c.
Proof.
  intros checkpw now c correo p1 p2 H.
  unfold login. run.
  destruct (fetchone _) as [u|]; [|reflexivity].
  destruct (Usuario.activo u); [|reflexivity].
  unfold verificar_password, password_bytes. now rewrite H.
Qed.

Lemma login_ignores_password_beyond_72_characters_witness :
  let p1 := repeat 97 72 ++ [98] in
  let p2 := repeat 97 72 ++ [99; 100] in
  firstn 72 p1 = firstn 72 p2
  /\ login checkpw_plain 1000 (LoginRequest.mk "ana@example.com" p1) conn_demo
     = login checkpw_plain 1000 (LoginRequest.mk "ana@example.com" p2)
         conn_demo.
Proof.
  intros p1 p2. split; [reflexivity|].
  exact (@login_ignores_password_beyond_72_characters checkpw_plain 1000
           conn_demo "ana@example.com" p1 p2 eq_refl).
Defined.



(** X12.  A lock with a negative number of days keeps nobody out: the
    right credentials log in at the time of the lock and at any later
    time. *)
Theorem lock_negative_days_does_not_lock :
  forall checkpw str_e now now' d datos c u,
    fetchone (usuarios_por_correo (LoginRequest.correo datos) (working c))
    = Some u ->
    Usuario.activo u = true ->
    verificar_password checkpw (LoginRequest.password datos)
      (Usuario.password_hash u) = Ok true ->
    d < 0 ->
    Z.abs d <= 999999999 ->
    0 <= now + d * 86400000000 ->
    now < datetime_max ->
    now <= now' ->
    let c' := snd (admin_accion_usuario str_e now
                     (AccionAdmin.mk (Usuario.id u) "bloquear" (Some d)) c) in
    exists es_trabajador,
      login checkpw now' datos c'
      = (Ok (LoginExitoso (Usuario.id u) (Usuario.nombre u)
               (Usuario.es_admin u) es_trabajador), c').
Proof.
  intros checkpw str_e now now' d datos c u Hu Hact Hpw Hd Habs H0 Hmax Hle c'.
  assert (Hd' : d <> 0) by lia.
  assert (Hrange : 0 <= now + d * 86400000000 < datetime_max) by lia.
  unfold c'.
  rewrite (@admin_bloquear_ok str_e now (Usuario.id u) d c Hd' Habs Hrange).
  cbn [snd].
  set (t := now + d * 86400000000).
  set (db' := with_usuarios _ (working c)).
  assert (Hu' : fetchone (usuarios_por_correo (LoginRequest.correo datos)
                            (working (mkConn db' db')))
                = Some (set_bloqueado_hasta (Some t) u)).
  { cbn [working]. unfold db'. now apply fetch_user_after_update. }
  rewrite (login_by_the_lock checkpw now' datos (mkConn db' db') Hu' Hact Hpw).
  cbn [set_bloqueado_hasta Usuario.bloqueado_hasta Usuario.id Usuario.nombre
       Usuario.es_admin].
  replace (t >? now') with false
    by (symmetry; rewrite Z.gtb_ltb; apply Z.ltb_ge; lia).
  eexists. reflexivity.
Qed.

Lemma lock_negative_days_does_not_lock_witness :
  let datos := LoginRequest.mk "ana@example.com" (str_of_string "secreto") in
  let c' := snd (admin_accion_usuario str_e_demo 1000000000000
                   (AccionAdmin.mk "u1" "bloquear" (Some (-1))) conn_demo) in
  (-1 < 0 /\ Z.abs (-1) <= 999999999
   /\ 0 <= 1000000000000 + -1 * 86400000000
   /\ 1000000000000 < datetime_max)
  /\ exists es_trabajador,
       login checkpw_plain 1000000000000 datos c'
       = (Ok (LoginExitoso "u1" "Ana" false es_trabajador), c').
Proof.
  intros datos c'.
  assert (H1 : -1 < 0) by lia.
  assert (H2 : Z.abs (-1) <= 999999999) by (cbn; lia).
  assert (H3 : 0 <= 1000000000000 + -1 * 86400000000) by lia.
  assert (H4 : 1000000000000 < datetime_max) by (unfold datetime_max; lia).
  split; [auto|].
  exact (@lock_negative_days_does_not_lock checkpw_plain str_e_demo
           1000000000000 1000000000000 (-1) datos conn_demo ana
           eq_refl eq_refl eq_refl H1 H2 H3 H4 (Z.le_refl _)).
Defined.

Lemma login_unknown_email_500 :
  forall checkpw now datos c,
    usuarios_por_correo (LoginRequest.correo datos) (working c) = [] ->
    login checkpw now datos c
    = (Raise (HTTPException 500 "Error interno"), c).
Proof.
  intros checkpw now datos c H. unfold login. run. rewrite H. reflexivity.
Qed.

(** X13.  After an unlock of the user, the right credentials log in at
    any time, whatever the lock was. *)
Theorem unlock_then_login :
  forall checkpw str_e now now' dias datos c u,
    fetchone (usuarios_por_correo (LoginRequest.correo datos) (working c))
    = Some u ->
    Usuario.activo u = true ->
    verificar_password checkpw (LoginRequest.password datos)
      (Usuario.password_hash u) = Ok true ->
    let r := admin_accion_usuario str_e now
               (AccionAdmin.mk (Usuario.id u) "desbloquear" dias) c in
    fst r = Ok (Mensaje "Acción 'desbloquear' ejecutada.")
    /\ exists es_trabajador,
         login checkpw now' datos (snd r)
         = (Ok (LoginExitoso (Usuario.id u) (Usuario.nombre u)
                  (Usuario.es_admin u) es_trabajador), snd r).
Proof.
  intros checkpw str_e now now' dias datos c u Hu Hact Hpw r.
  set (db' := with_usuarios
                (update_where (fun r => String.eqb (Usuario.id r) (Usuario.id u))
                   (set_bloqueado_hasta None)) (working c)).
  assert (Er : r = (Ok (Mensaje "Acción 'desbloquear' ejecutada."),
                    mkConn db' db')) by reflexivity.
  rewrite Er. cbn [fst snd]. split; [reflexivity|].
  assert (Hu' : fetchone (usuarios_por_correo (LoginRequest.correo datos)
                            (working (mkConn db' db')))
                = Some (set_bloqueado_hasta None u)).
  { cbn [working]. unfold db'. now apply fetch_user_after_update. }
  rewrite (login_by_the_lock checkpw now' datos (mkConn db' db') Hu' Hact Hpw).
  eexists. reflexivity.
Qed.

Lemma unlock_then_login_witness :
  let datos := LoginRequest.mk "ana@example.com" (str_of_string "secreto") in
  let r := admin_accion_usuario str_e_demo 1000
             (AccionAdmin.mk "u1" "desbloquear" None) conn_demo in
  (fetchone (usuarios_por_correo (LoginRequest.correo datos) (working conn_demo))
   = Some ana
   /\ Usuario.bloqueado_hasta ana = Some 5000)
  /\ fst r = Ok (Mensaje "Acción 'desbloquear' ejecutada.")
  /\ exists es_trabajador,
       login checkpw_plain 1000 datos (snd r)
       = (Ok (LoginExitoso "u1" "Ana" false es_trabajador), snd r).
Proof.
  intros datos r. split; [split; reflexivity|].
  exact (@unlock_then_login checkpw_plain str_e_demo 1000 1000 None datos
           conn_demo ana eq_refl eq_refl eq_refl).
Defined.

(** X14.  After the deletion of a user, no row of [usuarios] has the id,
    and a login with the email of the user, if nobody else has it, is
    answered 500 like the login of an unknown email. *)
Theorem delete_then_login :
  forall checkpw str_e now now' dias usuario_id datos c,
    (forall u, In u (usuarios (working c)) ->
               Usuario.correo_electronico u = LoginRequest.correo datos ->
               Usuario.id u = usuario_id) ->
    let r := admin_accion_usuario str_e now
               (AccionAdmin.mk usuario_id "borrar" dias) c in
    fst r = Ok (Mensaje "Acción 'borrar' ejecutada.")
    /\ ~ In usuario_id (map Usuario.id (usuarios (committed (snd r))))
    /\ login checkpw now' datos (snd r)
       = (Raise (HTTPException 500 "Error interno"), snd r).
Proof.
  intros checkpw str_e now now' dias usuario_id datos c Hmail r.
  set (db' := with_usuarios
                (filter (fun u => negb (String.eqb (Usuario.id u) usuario_id)))
                (working c)).
  assert (Er : r = (Ok (Mensaje "Acción 'borrar' ejecutada."),
                    mkConn db' db')) by reflexivity.
  rewrite Er. cbn [fst snd committed]. split; [reflexivity|]. split.
  - intro Hin. apply in_map_iff in Hin. destruct Hin as [u [Hid Hu]].
    unfold db' in Hu. cbn in Hu. apply filter_In in Hu.
    destruct Hu as [_ Hneg]. rewrite Hid, String.eqb_refl in Hneg.
    discriminate.
  - assert (Hnone : usuarios_por_correo (LoginRequest.correo datos) db' = []).
    { unfold usuarios_por_correo, db'. cbn [with_usuarios usuarios].
      destruct (filter _ (filter _ _)) as [|u resto] eqn:E; [reflexivity|].
      assert (Hin : In u (u :: resto)) by now left.
      rewrite <- E in Hin. apply filter_In in Hin. destruct Hin as [Hin Hm].
      apply filter_In in Hin. destruct Hin as [Hin Hneg].
      apply String.eqb_eq in Hm.
      rewrite (Hmail u Hin Hm), String.eqb_refl in Hneg. discriminate. }
    now apply login_unknown_email_500.
Qed.

Lemma delete_then_login_witness :
  let datos := LoginRequest.mk "ana@example.com" (str_of_string "secreto") in
  let r := admin_accion_usuario str_e_demo 1000
             (AccionAdmin.mk "u1" "borrar" None) conn_demo in
  map Usuario.id (usuarios (working conn_demo)) = ["u1"; "u2"]
  /\ fst r = Ok (Mensaje "Acción 'borrar' ejecutada.")
  /\ ~ In "u1" (map Usuario.id (usuarios (committed (snd r))))
  /\ login checkpw_plain 6000 datos (snd r)
     = (Raise (HTTPException 500 "Error interno"), snd r).
Proof.
  intros datos r. split; [reflexivity|].
  apply (@delete_then_login checkpw_plain str_e_demo 1000 6000 None "u1"
           datos conn_demo).
  intros u [<- | [<- | []]] H; [reflexivity | discriminate H].
Defined.

(** X15.  A validation marks the rows of the worker in
    [detalles_trabajador] as validated and changes nothing else: not the
    rating of the worker, not the other workers, not the users. *)
Theorem admin_validar_only_sets_the_flag :
  forall str_e now usuario_id dias c,
    let r := admin_accion_usuario str_e now
               (AccionAdmin.mk usuario_id "validar" dias) c in
    fst r = Ok (Mensaje "Acción 'validar' ejecutada.")
    /\ committed (snd r) = working (snd r)
    /\ usuarios (committed (snd r)) = usuarios (working c)
    /\ servicios (committed (snd r)) = servicios (working c)
    /\ propuestas (committed (snd r)) = propuestas (working c)
    /\ map (fun dt => (DetalleTrabajador.usuario_id dt,
                       DetalleTrabajador.calificacion_promedio dt,
                       DetalleTrabajador.total_evaluaciones dt,
                       DetalleTrabajador.validado_por_admin dt))
         (detalles_trabajador (committed (snd r)))
       = map (fun dt =>
                (DetalleTrabajador.usuario_id dt,
                 DetalleTrabajador.calificacion_promedio dt,
                 DetalleTrabajador.total_evaluaciones dt,
                 if String.eqb (DetalleTrabajador.usuario_id dt) usuario_id
                 then true else DetalleTrabajador.validado_por_admin dt))
           (detalles_trabajador (working c)).
Proof.
  intros str_e now usuario_id dias c r.
  unfold r, admin_accion_usuario. run. repeat split.
  unfold update_where. rewrite map_map. apply map_ext. intro dt.
  destruct (String.eqb (DetalleTrabajador.usuario_id dt) usuario_id);
    reflexivity.
Qed.

(* ----------------------------------------------------------------- *)
(** *** Account verification, again *)

Lemma verificar_cuenta_when_active :
  forall datos c u,
    fetchone (usuarios_por_correo (DatosVerificacion.correo datos) (working c))
    = Some u ->
    Usuario.activo u = true ->
    verificar_cuenta datos c = (Ok (Mensaje "Cuenta ya activa."), c).
Proof.
  intros datos c u Hu Hact.
  unfold verificar_cuenta. run. rewrite Hu, Hact. reflexivity.
Qed.

(** X16.  On an account that is active the code is not looked at: any
    code is answered "Cuenta ya activa.", and nothing is written. *)
Theorem verificar_cuenta_active_any_code :
  forall datos c u,
    fetchone (usuarios_por_correo (DatosVerificacion.correo datos) (working c))
    = Some u ->
    Usuario.activo u = true ->
    verificar_cuenta datos c = (Ok (Mensaje "Cuenta ya activa."), c).
Proof.
  intros datos c u Hu Hact. now apply verificar_cuenta_when_active with u.
Qed.

Lemma verificar_cuenta_active_any_code_witness :
  let datos := DatosVerificacion.mk "ana@example.com" "000000" in
  (fetchone (usuarios_por_correo (DatosVerificacion.correo datos)
               (working conn_demo)) = Some ana
   /\ Usuario.activo ana = true
   /\ Usuario.codigo_verificacion ana = Some "123456")
  /\ verificar_cuenta datos conn_demo
     = (Ok (Mensaje "Cuenta ya activa."), conn_demo).
Proof.
  intro datos. split; [repeat split|].
  exact (@verificar_cuenta_active_any_code datos conn_demo ana
           eq_refl eq_refl).
Defined.

(** X17.  Verification is idempotent: after the verification of an
    inactive account with its code, a second one, with that code or any
    other, succeeds and leaves the store as the first one left it. *)
Theorem verificar_cuenta_twice :
  forall datos datos' c u,
    DatosVerificacion.correo datos' = DatosVerificacion.correo datos ->
    fetchone (usuarios_por_correo (DatosVerificacion.correo datos) (working c))
    = Some u ->
    Usuario.activo u = false ->
    Usuario.codigo_verificacion u = Some (DatosVerificacion.codigo datos) ->
    let r1 := verificar_cuenta datos c in
    let r2 := verificar_cuenta datos' (snd r1) in
    fst r1 = Ok (Mensaje "¡Cuenta activada!")
    /\ r2 = (Ok (Mensaje "Cuenta ya activa."), snd r1).
Proof.
  intros datos datos' c u Hmail Hu Hact Hcod r1 r2.
  unfold r2, r1.
  rewrite (verificar_cuenta_activates datos c Hu Hact Hcod).
  cbn [fst snd]. split; [reflexivity|].
  apply verificar_cuenta_when_active with (u := set_activo true u);
    [|reflexivity].
  rewrite Hmail. cbn [working]. now apply fetch_user_after_update.
Qed.

Lemma verificar_cuenta_twice_witness :
  let datos := DatosVerificacion.mk "beto@example.com" "654321" in
  let datos' := DatosVerificacion.mk "beto@example.com" "000000" in
  let r1 := verificar_cuenta datos conn_demo in
  let r2 := verificar_cuenta datos' (snd r1) in
  (fetchone (usuarios_por_correo (DatosVerificacion.correo datos)
               (working conn_demo)) = Some beto
   /\ Usuario.activo beto = false
   /\ Usuario.codigo_verificacion beto = Some "654321")
  /\ fst r1 = Ok (Mensaje "¡Cuenta activada!")
  /\ r2 = (Ok (Mensaje "Cuenta ya activa."), snd r1).
Proof.
  intros datos datos' r1 r2. split; [repeat split|].
  exact (@verificar_cuenta_twice datos datos' conn_demo beto
           eq_refl eq_refl eq_refl eq_refl).
Defined.

(* ----------------------------------------------------------------- *)
(** *** Hiring, again *)

Lemma aceptadas_after_update (id : string) rows :
  map (fun q => (Propuesta.id q, Propuesta.aceptada q))
    (update_where (es_propuesta id) set_aceptada rows)
  = map (fun q => (Propuesta.id q,
                   if es_propuesta id q then Some true
                   else Propuesta.aceptada q)) rows.
Proof.
  unfold update_where. rewrite map_map. apply map_ext. intro q.
  destruct (es_propuesta id q); reflexivity.
Qed.

(** X19.  A hire gives the request the worker of the call and the price of
    the proposal of the call, whatever request and worker that proposal was
    made for, and marks that proposal accepted; the other proposals stay,
    with the acceptance they had, those for the same request too. *)
Theorem hire_copies_the_price :
  forall datos c p,
    filter (es_propuesta (AceptarPropuesta.propuesta_id datos))
      (propuestas (working c)) = [p] ->
    let r := contratar_trabajador datos c in
    fst r = Ok (Mensaje "¡Contratado!")
    /\ map (fun s => (Servicio.id s, Servicio.trabajador_id s,
                      Servicio.precio_estimado s))
         (servicios (committed (snd r)))
       = map (fun s =>
                if es_servicio (AceptarPropuesta.servicio_id datos) s
                then (Servicio.id s,
                      Some (AceptarPropuesta.trabajador_id datos),
                      Some (Propuesta.precio_oferta p))
                else (Servicio.id s, Servicio.trabajador_id s,
                      Servicio.precio_estimado s))
           (servicios (working c))
    /\ map (fun q => (Propuesta.id q, Propuesta.aceptada q))
         (propuestas (committed (snd r)))
       = map (fun q =>
                (Propuesta.id q,
                 if es_propuesta (AceptarPropuesta.propuesta_id datos) q
                 then Some true else Propuesta.aceptada q))
           (propuestas (working c)).
Proof.
  intros datos c p Hp r.
  assert (Hkey : (List.length
                    (filter (es_propuesta (AceptarPropuesta.propuesta_id datos))
                       (propuestas (working c))) <= 1)%nat)
    by (rewrite Hp; cbn; lia).
  unfold r. rewrite (contratar_trabajador_ok datos c Hkey).
  cbn [fst snd committed]. split; [reflexivity|].
  cbn [with_propuestas with_servicios servicios propuestas].
  split; [|apply aceptadas_after_update].
  rewrite Hp. unfold update_where. rewrite map_map. apply map_ext. intro s.
  destruct (es_servicio (AceptarPropuesta.servicio_id datos) s); reflexivity.
Qed.

Lemma hire_copies_the_price_witness :
  let datos := AceptarPropuesta.mk "s3" "w9" "p" in
  let r := contratar_trabajador datos conn_demo in
  filter (es_propuesta "p") (propuestas (working conn_demo))
  = [Propuesta.mk "p" "s4" "w1" (Qmake 250 1) "puedo hoy" None]
  /\ fst r = Ok (Mensaje "¡Contratado!")
  /\ map (fun s => (Servicio.id s, Servicio.trabajador_id s,
                    Servicio.precio_estimado s))
       (servicios (committed (snd r)))
     = [("s1", Some "w1", None); ("s2", Some "w1", None);
        ("s3", Some "w9", Some (Qmake 250 1)); ("s4", None, None)]
  /\ map (fun q => (Propuesta.id q, Propuesta.aceptada q))
       (propuestas (committed (snd r)))
     = [("p", Some true)].
Proof.
  intros datos r. split; [reflexivity|].
  exact (@hire_copies_the_price datos conn_demo
           (Propuesta.mk "p" "s4" "w1" (Qmake 250 1) "puedo hoy" None)
           eq_refl).
Defined.

(** X20.  A hire with a proposal id that no proposal has still takes the
    request: it gets the worker and the state EN_PROCESO, and its price is
    erased; no proposal changes. *)
Theorem hire_without_proposal_erases_the_price :
  forall datos c,
    filter (es_propuesta (AceptarPropuesta.propuesta_id datos))
      (propuestas (working c)) = [] ->
    let r := contratar_trabajador datos c in
    fst r = Ok (Mensaje "¡Contratado!")
    /\ map (fun s => (Servicio.id s, Servicio.trabajador_id s,
                      Servicio.estado s, Servicio.precio_estimado s))
         (servicios (committed (snd r)))
       = map (fun s =>
                if es_servicio (AceptarPropuesta.servicio_id datos) s
                then (Servicio.id s,
                      Some (AceptarPropuesta.trabajador_id datos),
                      EN_PROCESO, None)
                else (Servicio.id s, Servicio.trabajador_id s,
                      Servicio.estado s, Servicio.precio_estimado s))
           (servicios (working c))
    /\ propuestas (committed (snd r)) = propuestas (working c).
Proof.
  intros datos c Hp r.
  assert (Hkey : (List.length
                    (filter (es_propuesta (AceptarPropuesta.propuesta_id datos))
                       (propuestas (working c))) <= 1)%nat)
    by (rewrite Hp; cbn; lia).
  unfold r. rewrite (contratar_trabajador_ok datos c Hkey).
  cbn [fst snd committed]. split; [reflexivity|].
  cbn [with_propuestas with_servicios servicios propuestas].
  split; [|now apply update_where_no_row].
  rewrite Hp. unfold update_where. rewrite map_map. apply map_ext. intro s.
  destruct (es_servicio (AceptarPropuesta.servicio_id datos) s); reflexivity.
Qed.

Lemma hire_without_proposal_erases_the_price_witness :
  let c := snd (contratar_trabajador (AceptarPropuesta.mk "s4" "w1" "p")
                  conn_demo) in
  let datos := AceptarPropuesta.mk "s4" "w2" "no-hay" in
  let r := contratar_trabajador datos c in
  (filter (es_propuesta "no-hay") (propuestas (working c)) = []
   /\ map (fun s => (Servicio.id s, Servicio.precio_estimado s))
        (servicios (working c))
      = [("s1", None); ("s2", None); ("s3", None);
         ("s4", Some (Qmake 250 1))])
  /\ fst r = Ok (Mensaje "¡Contratado!")
  /\ map (fun s => (Servicio.id s, Servicio.trabajador_id s,
                    Servicio.estado s, Servicio.precio_estimado s))
       (servicios (committed (snd r)))
     = [("s1", Some "w1", TERMINADO, None); ("s2", Some "w1", TERMINADO, None);
        ("s3", Some "w1", EN_PROCESO, None);
        ("s4", Some "w2", EN_PROCESO, None)]
  /\ propuestas (committed (snd r)) = propuestas (working c).
Proof.
  intros c datos r. split; [split; reflexivity|].
  exact (@hire_without_proposal_erases_the_price datos c eq_refl).
Defined.

(** X21.  Two hires on one request with two proposals: the second is not
    refused; the request ends with the worker and the price of the second,
    and both proposals are accepted. *)
Theorem hire_twice :
  forall servicio w1 w2 c p1 p2,
    Propuesta.id p1 <> Propuesta.id p2 ->
    filter (es_propuesta (Propuesta.id p1)) (propuestas (working c)) = [p1] ->
    filter (es_propuesta (Propuesta.id p2)) (propuestas (working c)) = [p2] ->
    let r1 := contratar_trabajador
                (AceptarPropuesta.mk servicio w1 (Propuesta.id p1)) c in
    let r2 := contratar_trabajador
                (AceptarPropuesta.mk servicio w2 (Propuesta.id p2)) (snd r1) in
    fst r1 = Ok (Mensaje "¡Contratado!")
    /\ fst r2 = Ok (Mensaje "¡Contratado!")
    /\ map (fun s => (Servicio.id s, Servicio.trabajador_id s,
                      Servicio.precio_estimado s))
         (servicios (committed (snd r2)))
       = map (fun s =>
                if es_servicio servicio s
                then (Servicio.id s, Some w2, Some (Propuesta.precio_oferta p2))
                else (Servicio.id s, Servicio.trabajador_id s,
                      Servicio.precio_estimado s))
           (servicios (working c))
    /\ map (fun q => (Propuesta.id q, Propuesta.aceptada q))
         (propuestas (committed (snd r2)))
       = map (fun q =>
                (Propuesta.id q,
                 if es_propuesta (Propuesta.id p1) q
                    || es_propuesta (Propuesta.id p2) q
                 then Some true else Propuesta.aceptada q))
           (propuestas (working c)).
Proof.
  intros servicio w1 w2 c p1 p2 Hne H1 H2 r1 r2.
  assert (Hkey1 : (List.length
                     (filter (es_propuesta (Propuesta.id p1))
                        (propuestas (working c))) <= 1)%nat)
    by (rewrite H1; cbn; lia).
  assert (E1 := contratar_trabajador_ok
                  (AceptarPropuesta.mk servicio w1 (Propuesta.id p1)) c Hkey1).
  cbn [AceptarPropuesta.servicio_id AceptarPropuesta.trabajador_id
       AceptarPropuesta.propuesta_id] in E1.
  cbn zeta in E1. rewrite H1 in E1. cbn [fetchone hd_error option_map] in E1.
  fold r1 in E1.
  set (db1 := with_propuestas _ _) in E1.
  assert (H2' : filter (es_propuesta (Propuesta.id p2)) (propuestas db1) = [p2]).
  { unfold db1. cbn [with_propuestas with_servicios propuestas].
    rewrite filter_update_where by reflexivity.
    rewrite H2. unfold update_where. cbn [map].
    unfold es_propuesta at 1.
    replace (String.eqb (Propuesta.id p2) (Propuesta.id p1)) with false;
      [reflexivity|].
    symmetry. apply String.eqb_neq. congruence. }
  assert (Hkey2 : (List.length
                     (filter (es_propuesta (Propuesta.id p2))
                        (propuestas (working (snd r1)))) <= 1)%nat)
    by (rewrite E1; cbn [snd working]; rewrite H2'; cbn; lia).
  assert (E2 := contratar_trabajador_ok
                  (AceptarPropuesta.mk servicio w2 (Propuesta.id p2))
                  (snd r1) Hkey2).
  cbn [AceptarPropuesta.servicio_id AceptarPropuesta.trabajador_id
       AceptarPropuesta.propuesta_id] in E2.
  cbn zeta in E2. fold r2 in E2.
  rewrite E2. rewrite E1. cbn [fst snd committed working].
  rewrite H2'. cbn [fetchone hd_error option_map].
  split; [reflexivity|]. split; [reflexivity|].
  unfold db1. cbn [with_propuestas with_servicios servicios propuestas].
  split.
  - unfold update_where. rewrite !map_map. apply map_ext. intro s.
    destruct (es_servicio servicio s) eqn:E.
    + replace (es_servicio servicio (set_contratado w1
                 (Some (Propuesta.precio_oferta p1)) s)) with true
        by (symmetry; exact E).
      reflexivity.
    + rewrite E. reflexivity.
  - rewrite aceptadas_after_update.
    unfold update_where. rewrite map_map. apply map_ext. intro q.
    destruct (es_propuesta (Propuesta.id p1) q) eqn:Eq1.
    + cbn [orb].
      replace (es_propuesta (Propuesta.id p2) (set_aceptada q))
        with (es_propuesta (Propuesta.id p2) q) by reflexivity.
      destruct (es_propuesta (Propuesta.id p2) q); reflexivity.
    + cbn [orb]. reflexivity.
Qed.

Lemma hire_twice_witness :
  let r1 := contratar_trabajador (AceptarPropuesta.mk "s4" "w1" "p")
              conn_demo2 in
  let r2 := contratar_trabajador (AceptarPropuesta.mk "s4" "w2" "pp")
              (snd r1) in
  (Propuesta.id propuesta_p <> Propuesta.id propuesta_pp
   /\ filter (es_propuesta "p") (propuestas (working conn_demo2))
      = [propuesta_p]
   /\ filter (es_propuesta "pp") (propuestas (working conn_demo2))
      = [propuesta_pp])
  /\ fst r1 = Ok (Mensaje "¡Contratado!")
  /\ fst r2 = Ok (Mensaje "¡Contratado!")
  /\ map (fun s => (Servicio.id s, Servicio.trabajador_id s,
                    Servicio.precio_estimado s))
       (servicios (committed (snd r2)))
     = [("s1", Some "w1", None); ("s2", Some "w1", None);
        ("s3", Some "w1", None); ("s4", Some "w2", Some (Qmake 200 1))]
  /\ map (fun q => (Propuesta.id q, Propuesta.aceptada q))
       (propuestas (committed (snd r2)))
     = [("p", Some true); ("pp", Some true)].
Proof.
  intros r1 r2.
  assert (Hne : Propuesta.id propuesta_p <> Propuesta.id propuesta_pp)
    by discriminate.
  split; [split; [exact Hne | split; reflexivity]|].
  exact (@hire_twice "s4" "w1" "w2" conn_demo2 propuesta_p propuesta_pp
           Hne eq_refl eq_refl).
Defined.

(* ----------------------------------------------------------------- *)
(** *** Completion, again *)

Lemma finalizar_servicio_unknown_500_witness :
  let datos := CalificarServicio.mk "no-hay" 5 "bien" in
  filter (es_servicio (CalificarServicio.servicio_id datos))
    (servicios (working conn_demo)) = []
  /\ finalizar_servicio datos conn_demo
     = (Raise (HTTPException 500 "Error finalizar"), conn_demo).
Proof.
  intro datos. split; [reflexivity|].
  exact (@finalizar_servicio_unknown_500 datos conn_demo eq_refl).
Defined.

(** X24.  Completing a request that has no worker closes and rates it and
    touches the rating of no worker. *)
Theorem finalizar_servicio_without_worker :
  forall datos c s resto,
    filter (es_servicio (CalificarServicio.servicio_id datos))
      (servicios (working c)) = s :: resto ->
    Servicio.trabajador_id s = None ->
    let r := finalizar_servicio datos c in
    fst r = Ok (Mensaje "Finalizado y calificado")
    /\ detalles_trabajador (committed (snd r))
       = detalles_trabajador (working c)
    /\ map (fun x => (Servicio.id x, Servicio.estado x, Servicio.calificacion x))
         (servicios (committed (snd r)))
       = map (fun x =>
                if es_servicio (CalificarServicio.servicio_id datos) x
                then (Servicio.id x, TERMINADO,
                      Some (CalificarServicio.calificacion datos))
                else (Servicio.id x, Servicio.estado x, Servicio.calificacion x))
           (servicios (working c)).
Proof.
  intros datos c s resto Hs Htid r.
  unfold r. rewrite (finalizar_servicio_ok datos c Hs).
  cbn [fst snd committed]. split; [reflexivity|].
  cbn [with_detalles_trabajador with_servicios servicios detalles_trabajador].
  rewrite Htid. split.
  - unfold update_where. cbn [eq_null]. apply map_id.
  - unfold update_where. rewrite map_map. apply map_ext. intro x.
    destruct (es_servicio (CalificarServicio.servicio_id datos) x);
      reflexivity.
Qed.

Lemma finalizar_servicio_without_worker_witness :
  let datos := CalificarServicio.mk "s4" 2 "nadie vino" in
  let r := finalizar_servicio datos conn_demo in
  filter (es_servicio "s4") (servicios (working conn_demo))
  = [Servicio.mk "s4" None SOLICITADO None None None]
  /\ fst r = Ok (Mensaje "Finalizado y calificado")
  /\ detalles_trabajador (committed (snd r))
     = detalles_trabajador (working conn_demo)
  /\ map (fun x => (Servicio.id x, Servicio.estado x, Servicio.calificacion x))
       (servicios (committed (snd r)))
     = [("s1", TERMINADO, Some 5); ("s2", TERMINADO, Some 3);
        ("s3", EN_PROCESO, None); ("s4", TERMINADO, Some 2)].
Proof.
  intros datos r. split; [reflexivity|].
  exact (@finalizar_servicio_without_worker datos conn_demo
           (Servicio.mk "s4" None SOLICITADO None None None) []
           eq_refl eq_refl).
Defined.

Lemma sum_bounds (lo hi : Z) (xs : list Z) :
  Forall (fun x => lo <= x <= hi) xs ->
  lo * Z.of_nat (List.length xs) <= fold_right Z.add 0 xs
  <= hi * Z.of_nat (List.length xs).
Proof.
  induction 1 as [|x xs Hx _ IH]; [cbn; lia|].
  cbn [fold_right List.length]. rewrite Nat2Z.inj_succ. lia.
Qed.

Lemma round_half_away_bounds (L H A n : Z) :
  0 < n -> L * n <= A <= H * n ->
  L <= round_half_away A n <= H.
Proof.
  intros Hn HA. unfold round_half_away.
  destruct (Z.lt_trichotomy A 0) as [Hneg | [-> | Hpos]].
  - rewrite (Z.sgn_neg A Hneg), (Z.abs_neq A) by lia.
    assert (Hlow : - H <= (2 * - A + n) / (2 * n))
      by (apply Z.div_le_lower_bound; nia).
    assert (Hup : (2 * - A + n) / (2 * n) < - L + 1)
      by (apply Z.div_lt_upper_bound; nia).
    lia.
  - cbn. nia.
  - rewrite (Z.sgn_pos A Hpos), (Z.abs_eq A) by lia.
    assert (Hlow : L <= (2 * A + n) / (2 * n))
      by (apply Z.div_le_lower_bound; nia).
    assert (Hup : (2 * A + n) / (2 * n) < H + 1)
      by (apply Z.div_lt_upper_bound; nia).
    lia.
Qed.

Lemma select_div_scale_nonneg (a b : Z) : 0 <= select_div_scale a b.
Proof.
  unfold select_div_scale.
  destruct (numeric_first a), (numeric_first b). lia.
Qed.

(** The numeric quotient of a sum by a count is between the integer bounds
    of the exact one. *)
Lemma numeric_div_bounds (lo hi S n : Z) :
  0 < n -> lo * n <= S <= hi * n ->
  (inject_Z lo <= numeric_div S n)%Q /\ (numeric_div S n <= inject_Z hi)%Q.
Proof.
  intros Hn HS. unfold numeric_div.
  pose proof (select_div_scale_nonneg S n) as Hr.
  set (r := select_div_scale S n) in *.
  assert (HP : 0 < 10 ^ r) by (apply Z.pow_pos_nonneg; lia).
  set (P := 10 ^ r) in *.
  destruct (@round_half_away_bounds (lo * P) (hi * P) (S * P) n Hn) as [H1 H2];
    [nia|].
  rewrite Qred_correct. unfold Qle, inject_Z. cbn [Qnum Qden].
  rewrite Z2Pos.id by exact HP. lia.
Qed.

Lemma round_half_even_bounds (L H a b : Z) :
  0 < b -> L * b <= a <= H * b ->
  L <= round_half_even a b <= H.
Proof.
  intros Hb Ha. unfold round_half_even.
  pose proof (Z.div_mod a b ltac:(lia)) as Hdm.
  pose proof (Z.mod_pos_bound a b Hb) as Hm.
  set (q := a / b) in *. set (r := a mod b) in *.
  assert (HLq : L <= q) by nia.
  assert (HqH : q <= H) by nia.
  destruct (2 * r <? b) eqn:E1; [lia|].
  apply Z.ltb_ge in E1.
  assert (Hlt : q < H) by nia.
  destruct (b <? 2 * r); [lia|].
  destruct (Z.even q); lia.
Qed.

(** The exponent that [float] takes is at most 52 below 2^53. *)
Lemma exponent_below_2_53 (a b : Z) :
  0 < a -> 0 < b -> a < b * 2 ^ 53 ->
  let e0 := Z.log2 a - Z.log2 b in
  let below := if 0 <=? e0 then a <? b * 2 ^ e0 else a * 2 ^ (- e0) <? b in
  (if below then e0 - 1 else e0) <= 52.
Proof.
  intros Ha Hb Hab e0 below.
  destruct (Z_le_gt_dec e0 52) as [Hle|Hgt].
  - destruct below; lia.
  - assert (E : (0 <=? e0) = true) by (apply Z.leb_le; lia).
    unfold below. rewrite E.
    destruct (a <? b * 2 ^ e0) eqn:Hbelow.
    + apply Z.ltb_lt in Hbelow.
      destruct (Z.eq_dec e0 53) as [E53|Hne]; [lia|].
      exfalso.
      pose proof (Z.log2_spec a Ha) as [Hla _].
      pose proof (Z.log2_spec b Hb) as [_ Hlb].
      pose proof (Z.log2_nonneg b) as Hlb0.
      assert (Hla_eq : Z.log2 a = Z.log2 b + 1 + (e0 - 1)) by (unfold e0; lia).
      rewrite Hla_eq, Z.pow_add_r in Hla by lia.
      replace (Z.succ (Z.log2 b)) with (Z.log2 b + 1) in Hlb by lia.
      assert (Hp : 2 ^ 53 <= 2 ^ (e0 - 1))
        by (apply Z.pow_le_mono_r; lia).
      assert (Hpos : 0 < 2 ^ (Z.log2 b + 1)) by (apply Z.pow_pos_nonneg; lia).
      nia.
    + apply Z.ltb_ge in Hbelow. exfalso.
      assert (Hp : 2 ^ 53 <= 2 ^ e0) by (apply Z.pow_le_mono_r; lia).
      nia.
Qed.

(** [float] keeps a number between two integers of less than 54 bits
    between them. *)
Lemma float_bounds (lo hi : Z) (x : Q) :
  - 2 ^ 53 < lo -> hi < 2 ^ 53 ->
  (inject_Z lo <= x)%Q -> (x <= inject_Z hi)%Q ->
  (inject_Z lo <= float x)%Q /\ (float x <= inject_Z hi)%Q.
Proof.
  intros Hlo Hhi Hx1 Hx2.
  unfold Qle, inject_Z in Hx1, Hx2. cbn [Qnum Qden] in Hx1, Hx2.
  unfold float.
  set (a' := Qnum x) in *. set (b := Z.pos (Qden x)) in *.
  assert (Hb : 0 < b) by (unfold b; lia).
  destruct (Z.abs a' =? 0) eqn:E0.
  - apply Z.eqb_eq in E0.
    unfold Qle. cbn. nia.
  - apply Z.eqb_neq in E0.
    assert (Ha : 0 < Z.abs a') by lia.
    assert (Hab : Z.abs a' < b * 2 ^ 53) by nia.
    pose proof (exponent_below_2_53 Ha Hb Hab) as He. cbn zeta in He.
    set (e := Z.max _ (-1022)).
    assert (He52 : e <= 52) by (unfold e; lia).
    replace (e <=? 52) with true by (symmetry; apply Z.leb_le; exact He52).
    assert (HP : 0 < 2 ^ (52 - e)) by (apply Z.pow_pos_nonneg; lia).
    set (P := 2 ^ (52 - e)) in *.
    rewrite Qred_correct.
    destruct (a' <? 0) eqn:Es.
    + apply Z.ltb_lt in Es.
      destruct (@round_half_even_bounds (- hi * P) (- lo * P)
                  (Z.abs a' * P) b Hb) as [H1 H2]; [nia|].
      unfold Qle, Qopp, inject_Z. cbn [Qnum Qden].
      rewrite Z2Pos.id by exact HP. lia.
    + apply Z.ltb_ge in Es.
      destruct (@round_half_even_bounds (lo * P) (hi * P)
                  (Z.abs a' * P) b Hb) as [H1 H2]; [nia|].
      unfold Qle, inject_Z. cbn [Qnum Qden].
      rewrite Z2Pos.id by exact HP. lia.
Qed.

(** X23.  When the ratings a worker had on the other requests and the
    rating of a completion are between two integer bounds, of less than 54
    bits, so is the average the completion stores for the worker, rounded as
    it is twice, and the number of evaluations it stores is at least one. *)
Theorem finalizar_servicio_average_within_bounds :
  forall datos c s tid lo hi dt,
    filter (fun x => String.eqb (Servicio.id x)
                       (CalificarServicio.servicio_id datos))
      (servicios (working c)) = [s] ->
    Servicio.trabajador_id s = Some tid ->
    - 2 ^ 53 < lo ->
    hi < 2 ^ 53 ->
    lo <= CalificarServicio.calificacion datos <= hi ->
    Forall (fun n => lo <= n <= hi)
      (flat_map
         (fun x =>
            match Servicio.trabajador_id x, Servicio.calificacion x with
            | Some w, Some n =>
                if String.eqb w tid
                   && negb (String.eqb (Servicio.id x)
                              (CalificarServicio.servicio_id datos))
                then [n] else []
            | _, _ => []
            end)
         (servicios (working c))) ->
    In dt (detalles_trabajador (committed (snd (finalizar_servicio datos c)))) ->
    DetalleTrabajador.usuario_id dt = tid ->
    (inject_Z lo <= DetalleTrabajador.calificacion_promedio dt)%Q
    /\ (DetalleTrabajador.calificacion_promedio dt <= inject_Z hi)%Q
    /\ 1 <= DetalleTrabajador.total_evaluaciones dt.
Proof.
  intros datos c s tid lo hi dt Hs Htid Hlo Hhi Hc Hprev Hin Hdt.
  change (filter (es_servicio (CalificarServicio.servicio_id datos))
            (servicios (working c)) = [s]) in Hs.
  rewrite (finalizar_servicio_ok datos c Hs) in Hin.
  cbn [snd committed with_detalles_trabajador with_servicios servicios
       detalles_trabajador] in Hin.
  rewrite Htid in Hin.
  destruct (@calificaciones_after_completion
              (CalificarServicio.servicio_id datos) tid
              (CalificarServicio.calificacion datos)
              (CalificarServicio.resena datos) (servicios (working c)) s Hs Htid)
    as [Hsum Hlen].
  cbn zeta in Hsum, Hlen.
  rewrite calificaciones_previas in Hsum, Hlen.
  set (previas := flat_map _ _) in Hprev, Hsum, Hlen.
  rewrite (AVG_sum_length _ Hlen), Hsum in Hin.
  unfold COUNT in Hin. rewrite Hlen in Hin.
  apply update_where_In in Hin. destruct Hin as [fila [_ E]].
  cbn [eq_null] in E.
  destruct (String.eqb_spec (DetalleTrabajador.usuario_id fila) tid) as [_|Hne];
    [|subst dt; contradiction].
  subst dt. cbn [set_estadisticas DetalleTrabajador.calificacion_promedio
                 DetalleTrabajador.total_evaluaciones].
  pose proof (sum_bounds Hprev) as Hb.
  set (n := List.length previas) in *.
  set (total := fold_right Z.add 0 previas) in *.
  assert (Hn : 0 < Z.of_nat (S n)) by lia.
  destruct (@numeric_div_bounds lo hi
              (total + CalificarServicio.calificacion datos)
              (Z.of_nat (S n)) Hn) as [H1 H2]; [nia|].
  destruct (float_bounds Hlo Hhi H1 H2) as [H3 H4].
  split; [exact H3|]. split; [exact H4|lia].
Qed.

Lemma finalizar_servicio_average_within_bounds_witness :
  let datos := CalificarServicio.mk "s3" 3 "regular" in
  let dt :=
    DetalleTrabajador.mk "w1" (Qmake 8256599316845909 2251799813685248) 3
      false in
  (- 2 ^ 53 < 1 /\ 5 < 2 ^ 53
   /\ 1 <= CalificarServicio.calificacion datos <= 5
   /\ In dt (detalles_trabajador
               (committed (snd (finalizar_servicio datos conn_demo3)))))
  /\ (inject_Z 1 <= DetalleTrabajador.calificacion_promedio dt)%Q
  /\ (DetalleTrabajador.calificacion_promedio dt <= inject_Z 5)%Q
  /\ 1 <= DetalleTrabajador.total_evaluaciones dt.
Proof.
  intros datos dt.
  assert (Hlo : - 2 ^ 53 < 1) by (cbn; lia).
  assert (Hhi : 5 < 2 ^ 53) by (cbn; lia).
  assert (Hc : 1 <= CalificarServicio.calificacion datos <= 5) by (cbn; lia).
  assert (Hin : In dt (detalles_trabajador
                         (committed (snd (finalizar_servicio datos conn_demo3)))))
    by (left; vm_compute; reflexivity).
  split; [auto|].
  apply (@finalizar_servicio_average_within_bounds datos conn_demo3
           (Servicio.mk "s3" (Some "w1") EN_PROCESO None None None) "w1" 1 5 dt
           eq_refl eq_refl Hlo Hhi Hc).
  - repeat constructor; lia.
  - exact Hin.
  - reflexivity.
Defined.

(* ----------------------------------------------------------------- *)
(** *** Transactions *)

(** X25.  An error never comes with a change of the store: when a request
    is answered with an exception, what is committed after it is what was
    committed before it. *)
Theorem errors_commit_nothing :
  forall hashpw checkpw gen_id acept str_e req c e,
    fst (app hashpw checkpw gen_id acept str_e req c) = Raise e ->
    committed (snd (app hashpw checkpw gen_id acept str_e req c))
    = committed c.
Proof.
  intros hashpw checkpw gen_id acept str_e req c e.
  destruct req; cbn [app].
  - unfold verificar_cuenta. run. branches; cbn; intro H;
      first [discriminate H | reflexivity].
  - destruct (login_ok_or_500 checkpw now datos c) as [[r ->] | ->];
      cbn; intro H; first [discriminate H | reflexivity].
  - unfold update_perfil_cliente. run. branches; cbn; intro H;
      first [discriminate H | reflexivity].
  - unfold crear_propuesta. run. branches; cbn; intro H;
      first [discriminate H | reflexivity].
  - unfold contratar_trabajador. run. branches; cbn; intro H;
      first [discriminate H | reflexivity].
  - unfold finalizar_servicio. run. branches; cbn; intro H;
      first [discriminate H | reflexivity].
  - unfold admin_accion_usuario. run. branches; cbn; intro H;
      first [discriminate H | reflexivity].
Qed.

Lemma errors_commit_nothing_witness :
  let req := POST_servicios_finalizar (CalificarServicio.mk "no-hay" 5 "x") in
  let r := app hashpw_plain checkpw_plain propuesta_id_demo None str_e_demo
             req conn_abierta in
  fst r = Raise (HTTPException 500 "Error finalizar")
  /\ committed (snd r) = committed conn_abierta.
Proof.
  intros req r. split; [reflexivity|].
  exact (@errors_commit_nothing hashpw_plain checkpw_plain propuesta_id_demo
           None str_e_demo req conn_abierta _ eq_refl).
Defined.

(** X26.  No request leaves a change uncommitted: on a connection without
    uncommitted changes, every request, answered or refused, leaves a
    connection without uncommitted changes.  (Whether the transaction that
    a SELECT opens is closed is not part of the model: a login, an
    already-active verification and a refused proposal return with neither
    commit nor rollback.) *)
Theorem no_uncommitted_changes_left :
  forall hashpw checkpw gen_id acept str_e req c,
    committed c = working c ->
    committed (snd (app hashpw checkpw gen_id acept str_e req c))
    = working (snd (app hashpw checkpw gen_id acept str_e req c)).
Proof.
  intros hashpw checkpw gen_id acept str_e req c Hclean.
  destruct req; cbn [app].
  - unfold verificar_cuenta. run. branches; cbn;
      first [reflexivity | exact Hclean].
  - destruct (login_ok_or_500 checkpw now datos c) as [[r ->] | ->];
      exact Hclean.
  - unfold update_perfil_cliente. run. branches; cbn;
      first [reflexivity | exact Hclean].
  - unfold crear_propuesta. run. branches; cbn;
      first [reflexivity | exact Hclean].
  - unfold contratar_trabajador. run. branches; cbn;
      first [reflexivity | exact Hclean].
  - unfold finalizar_servicio. run. branches; cbn;
      first [reflexivity | exact Hclean].
  - unfold admin_accion_usuario. run. branches; cbn;
      first [reflexivity | exact Hclean].
Qed.

Lemma no_uncommitted_changes_left_witness :
  let req := POST_propuestas (CrearPropuesta.mk "s4" "w2" (Qmake 300 1) "hola") in
  let r := app hashpw_plain checkpw_plain propuesta_id_demo None str_e_demo
             req conn_demo in
  committed conn_demo = working conn_demo
  /\ fst r = Ok (Mensaje "Propuesta enviada")
  /\ committed (snd r) = working (snd r).
Proof.
  intros req r. split; [reflexivity|]. split; [reflexivity|].
  exact (@no_uncommitted_changes_left hashpw_plain checkpw_plain propuesta_id_demo
           None str_e_demo req conn_demo eq_refl).
Defined.

(** The identity and the credentials of a user. *)
Lemma same_credentials_update cond (set : Usuario.t -> Usuario.t) rows u' :
  (forall u, Usuario.id (set u) = Usuario.id u
             /\ Usuario.correo_electronico (set u) = Usuario.correo_electronico u
             /\ Usuario.password_hash (set u) = Usuario.password_hash u
             /\ Usuario.es_admin (set u) = Usuario.es_admin u) ->
  In u' (update_where cond set rows) ->
  exists u, In u rows
            /\ Usuario.id u' = Usuario.id u
            /\ Usuario.correo_electronico u' = Usuario.correo_electronico u
            /\ Usuario.password_hash u' = Usuario.password_hash u
            /\ Usuario.es_admin u' = Usuario.es_admin u.
Proof.
  intros Hset Hin. apply update_where_In in Hin.
  destruct Hin as [u [Hu ->]]. exists u. split; [exact Hu|].
  destruct (cond u); [apply Hset | repeat split].
Qed.

(** X27.  No request of these routes makes a user, or changes the id, the
    email, the password hash or the admin flag of one: after any of them,
    every user of the store is a user that was there, with those four as
    they were. *)
Theorem credentials_are_kept :
  forall hashpw checkpw gen_id acept str_e req c u',
    committed c = working c ->
    In u' (usuarios (working (snd (app hashpw checkpw gen_id acept str_e
                                     req c)))) ->
    exists u, In u (usuarios (working c))
              /\ Usuario.id u' = Usuario.id u
              /\ Usuario.correo_electronico u' = Usuario.correo_electronico u
              /\ Usuario.password_hash u' = Usuario.password_hash u
              /\ Usuario.es_admin u' = Usuario.es_admin u.
Proof.
  intros hashpw checkpw gen_id acept str_e req c u' Hclean.
  assert (Hsame : In u' (usuarios (working c)) ->
                  exists u, In u (usuarios (working c))
                            /\ Usuario.id u' = Usuario.id u
                            /\ Usuario.correo_electronico u'
                               = Usuario.correo_electronico u
                            /\ Usuario.password_hash u' = Usuario.password_hash u
                            /\ Usuario.es_admin u' = Usuario.es_admin u)
    by (intro H; exists u'; repeat split; exact H).
  assert (Hcomm : In u' (usuarios (committed c)) ->
                  exists u, In u (usuarios (working c))
                            /\ Usuario.id u' = Usuario.id u
                            /\ Usuario.correo_electronico u'
                               = Usuario.correo_electronico u
                            /\ Usuario.password_hash u' = Usuario.password_hash u
                            /\ Usuario.es_admin u' = Usuario.es_admin u)
    by (rewrite Hclean; exact Hsame).
  destruct req; cbn [app].
  - unfold verificar_cuenta. run. branches; cbn;
      first [exact Hsame | exact Hcomm
            | apply same_credentials_update; intro; repeat split].
  - destruct (login_ok_or_500 checkpw now datos c) as [[r ->] | ->];
      exact Hsame.
  - unfold update_perfil_cliente. run. branches; cbn;
      first [exact Hsame | exact Hcomm].
  - unfold crear_propuesta. run. branches; cbn;
      first [exact Hsame | exact Hcomm].
  - unfold contratar_trabajador. run. branches; cbn;
      first [exact Hsame | exact Hcomm].
  - unfold finalizar_servicio. run. branches; cbn;
      first [exact Hsame | exact Hcomm].
  - unfold admin_accion_usuario. run. branches; cbn;
      first [exact Hsame | exact Hcomm
            | apply same_credentials_update; intro; repeat split
            | intro H; apply filter_In in H; apply Hsame; tauto].
Qed.

Lemma credentials_are_kept_witness :
  let req := POST_admin_accion 1000 (AccionAdmin.mk "u1" "desbloquear" None) in
  let u' := set_bloqueado_hasta None ana in
  (committed conn_demo = working conn_demo
   /\ In u' (usuarios (working (snd (app hashpw_plain checkpw_plain
                                       propuesta_id_demo None str_e_demo
                                       req conn_demo)))))
  /\ exists u, In u (usuarios (working conn_demo))
               /\ Usuario.id u' = Usuario.id u
               /\ Usuario.correo_electronico u' = Usuario.correo_electronico u
               /\ Usuario.password_hash u' = Usuario.password_hash u
               /\ Usuario.es_admin u' = Usuario.es_admin u.
Proof.
  intros req u'.
  assert (Hin : In u' (usuarios (working (snd (app hashpw_plain checkpw_plain
                                                 propuesta_id_demo None
                                                 str_e_demo req conn_demo)))))
    by (left; reflexivity).
  split; [split; [reflexivity | exact Hin]|].
  exact (@credentials_are_kept hashpw_plain checkpw_plain propuesta_id_demo
           None str_e_demo req conn_demo u' eq_refl Hin).
Defined.

(* ----------------------------------------------------------------- *)
(** *** Registration of a client *)

(** What a registration does with an email nobody has and a password that
    hashes. *)
Lemma registrar_cliente_ok :
  forall hashpw gen_id foto es_admin bloqueado str_e random salt datos c h,
    existsb (fun u => String.eqb (Usuario.correo_electronico u)
                        (RegistroCliente.correo_electronico datos))
      (usuarios (working c)) = false ->
    encriptar_password hashpw salt (RegistroCliente.password datos) = Ok h ->
    let nuevo :=
      Usuario.mk (gen_id (usuarios (working c)))
        (RegistroCliente.nombre datos) (RegistroCliente.apellidos datos)
        (RegistroCliente.correo_electronico datos) h
        (RegistroCliente.telefono datos) foto es_admin true
        (Some (generar_codigo_verificacion random)) bloqueado in
    let db' :=
      with_detalles_cliente
        (fun filas =>
           filas ++
           [DetalleCliente.mk (Usuario.id nuevo)
              (RegistroCliente.calle datos) (RegistroCliente.colonia datos)
              (RegistroCliente.numero_exterior datos)
              (RegistroCliente.numero_interior datos)
              (RegistroCliente.codigo_postal datos)
              (RegistroCliente.ciudad datos)
              (RegistroCliente.referencias datos)
              (RegistroCliente.latitud datos)
              (RegistroCliente.longitud datos)])
        (with_usuarios (fun filas => filas ++ [nuevo]) (working c)) in
    registrar_cliente hashpw gen_id foto es_admin bloqueado str_e random salt
      datos (Some c)
    = (Ok (Registrado "Cliente registrado."
             (RegistroCliente.correo_electronico datos)),
       Some (mkConn db' db')).
Proof.
  intros hashpw gen_id foto es_admin bloqueado str_e random salt datos c h
    Hfresh Hhash nuevo db'.
  unfold registrar_cliente, try_except_integrity, bindI, liftI, retI,
    insert_usuario, lift, execute, commit.
  rewrite Hhash. cbn [working committed Usuario.correo_electronico].
  rewrite Hfresh. reflexivity.
Qed.

(** X28.  A registration with the email of a user of the store keeps
    nothing: the transaction is rolled back and the answer is an error, 400
    "Correo ya registrado." when the password hashes, and a 500 when the
    hashing of the password, which comes first, raises. *)
Theorem registrar_cliente_duplicate_email :
  forall hashpw gen_id foto es_admin bloqueado str_e random salt datos c,
    existsb (fun u => String.eqb (Usuario.correo_electronico u)
                        (RegistroCliente.correo_electronico datos))
      (usuarios (working c)) = true ->
    exists status detail,
      registrar_cliente hashpw gen_id foto es_admin bloqueado str_e random
        salt datos (Some c)
      = (Raise (HTTPException status detail),
         Some (mkConn (committed c) (committed c)))
      /\ (forall h, encriptar_password hashpw salt
                      (RegistroCliente.password datos) = Ok h ->
                    status = 400 /\ detail = "Correo ya registrado.")
      /\ (forall e, encriptar_password hashpw salt
                      (RegistroCliente.password datos) = Raise e ->
                    status = 500).
Proof.
  intros hashpw gen_id foto es_admin bloqueado str_e random salt datos c Hdup.
  unfold registrar_cliente, try_except_integrity, bindI, liftI, retI,
    insert_usuario, lift, execute, commit.
  destruct (encriptar_password hashpw salt (RegistroCliente.password datos))
    as [h|e].
  - cbn [working committed Usuario.correo_electronico]. rewrite Hdup.
    exists 400, "Correo ya registrado.". split; [reflexivity|].
    split; [intros; split; reflexivity | intros e H; discriminate H].
  - exists 500, ("Error: " ++ str_e e)%string. split; [reflexivity|].
    split; [intros h H; discriminate H | reflexivity].
Qed.

Lemma registrar_cliente_duplicate_email_witness :
  let datos :=
    RegistroCliente.mk "Ana" "Otra" "ana@example.com" (str_of_string "abc123")
      "558" 0 "Sur" "Del Valle" "3" None "03100" "CDMX" None None None in
  let datos' :=
    RegistroCliente.mk "Ana" "Otra" "ana@example.com" [55296]
      "558" 0 "Sur" "Del Valle" "3" None "03100" "CDMX" None None None in
  (existsb (fun u => String.eqb (Usuario.correo_electronico u)
                       (RegistroCliente.correo_electronico datos))
     (usuarios (working conn_abierta)) = true
   /\ encriptar_password hashpw_plain [] (RegistroCliente.password datos)
      = Ok (str_of_string "abc123")
   /\ encriptar_password hashpw_plain [] (RegistroCliente.password datos')
      = Raise UnicodeError)
  /\ registrar_cliente hashpw_plain usuario_id_demo None false None str_e_demo
       random_demo [] datos (Some conn_abierta)
     = (Raise (HTTPException 400 "Correo ya registrado."),
        Some (mkConn (committed conn_abierta) (committed conn_abierta)))
  /\ exists detail,
       registrar_cliente hashpw_plain usuario_id_demo None false None
         str_e_demo random_demo [] datos' (Some conn_abierta)
       = (Raise (HTTPException 500 detail),
          Some (mkConn (committed conn_abierta) (committed conn_abierta))).
Proof.
  intros datos datos'. split; [repeat split; reflexivity|]. split.
  - destruct (@registrar_cliente_duplicate_email hashpw_plain usuario_id_demo
                None false None str_e_demo random_demo [] datos conn_abierta
                eq_refl) as [status [detail [E [Hok _]]]].
    destruct (Hok (str_of_string "abc123") eq_refl) as [-> ->].
    exact E.
  - destruct (@registrar_cliente_duplicate_email hashpw_plain usuario_id_demo
                None false None str_e_demo random_demo [] datos' conn_abierta
                eq_refl) as [status [detail [E [_ Hraise]]]].
    rewrite (Hraise UnicodeError eq_refl) in E.
    exists detail. exact E.
Defined.

Lemma usuarios_por_correo_new correo db nuevo :
  existsb (fun u => String.eqb (Usuario.correo_electronico u) correo)
    (usuarios db) = false ->
  Usuario.correo_electronico nuevo = correo ->
  forall f,
    usuarios_por_correo correo
      (with_detalles_cliente f
         (with_usuarios (fun filas => filas ++ [nuevo]) db))
    = [nuevo].
Proof.
  intros Hfresh Hmail f. unfold usuarios_por_correo. cbn.
  rewrite filter_app. cbn. rewrite Hmail, String.eqb_refl.
  replace (filter _ (usuarios db)) with (@nil Usuario.t); [reflexivity|].
  symmetry. induction (usuarios db) as [|u filas IH]; [reflexivity|].
  cbn in Hfresh |- *. apply orb_false_iff in Hfresh.
  destruct Hfresh as [-> Hrest]. now apply IH.
Qed.

(** X29.  A client is active from its registration: the verification of
    its account, with the code it was given or with any other, is answered
    "Cuenta ya activa." and writes nothing. *)
Theorem register_then_verify :
  forall hashpw gen_id foto es_admin bloqueado str_e random salt datos c h
         codigo,
    existsb (fun u => String.eqb (Usuario.correo_electronico u)
                        (RegistroCliente.correo_electronico datos))
      (usuarios (working c)) = false ->
    encriptar_password hashpw salt (RegistroCliente.password datos) = Ok h ->
    exists c',
      registrar_cliente hashpw gen_id foto es_admin bloqueado str_e random
        salt datos (Some c)
      = (Ok (Registrado "Cliente registrado."
               (RegistroCliente.correo_electronico datos)), Some c')
      /\ verificar_cuenta
           (DatosVerificacion.mk (RegistroCliente.correo_electronico datos)
              codigo) c'
         = (Ok (Mensaje "Cuenta ya activa."), c').
Proof.
  intros hashpw gen_id foto es_admin bloqueado str_e random salt datos c h
    codigo Hfresh Hhash.
  rewrite (@registrar_cliente_ok hashpw gen_id foto es_admin bloqueado str_e
             random salt datos c h Hfresh Hhash).
  eexists. split; [reflexivity|].
  eapply verificar_cuenta_when_active.
  - cbn [DatosVerificacion.correo working].
    rewrite usuarios_por_correo_new by (try exact Hfresh; reflexivity).
    reflexivity.
  - reflexivity.
Qed.

Lemma register_then_verify_witness :
  existsb (fun u => String.eqb (Usuario.correo_electronico u)
                      (RegistroCliente.correo_electronico registro_demo))
    (usuarios (working conn_demo)) = false
  /\ exists c',
       registrar_cliente hashpw_plain usuario_id_demo None false None
         str_e_demo random_demo [] registro_demo (Some conn_demo)
       = (Ok (Registrado "Cliente registrado." "caro@example.com"), Some c')
       /\ verificar_cuenta (DatosVerificacion.mk "caro@example.com" "000000") c'
          = (Ok (Mensaje "Cuenta ya activa."), c').
Proof.
  split; [reflexivity|].
  exact (@register_then_verify hashpw_plain usuario_id_demo None false None
           str_e_demo random_demo [] registro_demo conn_demo
           (str_of_string "abc123") "000000" eq_refl eq_refl).
Defined.

Lemma byte_of_Z_of_byte (b : byte) : byte_of_Z (Z_of_byte b) = b.
Proof. destruct b; reflexivity. Qed.

Lemma decode_utf8_Z_ascii (zs : list Z) :
  forall fuel,
    (List.length zs <= fuel)%nat ->
    Forall (fun z => 0 <= z < 128) zs ->
    decode_utf8_Z fuel zs = Ok zs.
Proof.
  induction zs as [|z zs IH]; intros fuel Hlen Hascii.
  - destruct fuel; reflexivity.
  - destruct fuel as [|fuel]; [cbn in Hlen; lia|].
    inversion Hascii as [|? ? Hz Hrest]; subst.
    cbn [decode_utf8_Z].
    replace (z <? 128) with true by (symmetry; apply Z.ltb_lt; lia).
    rewrite IH; [reflexivity | cbn in Hlen; lia | exact Hrest].
Qed.

(** A hash of ASCII bytes is stored and read back as it is. *)
Lemma hash_round_trip (h : list byte) :
  Forall (fun b => Z_of_byte b < 128) h ->
  exists s, decode_utf8 h = Ok s /\ encode_utf8 s = Ok h.
Proof.
  intro H. exists (map Z_of_byte h).
  assert (Hz : Forall (fun z => 0 <= z < 128) (map Z_of_byte h)).
  { apply Forall_forall. intros z Hin. apply in_map_iff in Hin.
    destruct Hin as [b [<- Hb]]. rewrite Forall_forall in H.
    specialize (H b Hb). unfold Z_of_byte in *. lia. }
  split.
  - unfold decode_utf8. apply decode_utf8_Z_ascii; [|exact Hz].
    now rewrite length_map.
  - rewrite (encode_utf8_ascii Hz), map_map.
    f_equal. rewrite <- (map_id h) at 2. apply map_ext, byte_of_Z_of_byte.
Qed.

(** X30.  A client that has registered logs in with the email and the
    password of the registration, when bcrypt verifies the password
    against the hash it made of it, the hash is made of ASCII bytes, and
    the table does not lock new users. *)
Theorem register_then_login :
  forall hashpw checkpw gen_id foto es_admin str_e random salt now datos c
         bytes h,
    existsb (fun u => String.eqb (Usuario.correo_electronico u)
                        (RegistroCliente.correo_electronico datos))
      (usuarios (working c)) = false ->
    password_bytes (RegistroCliente.password datos) = Ok bytes ->
    hashpw bytes salt = Ok h ->
    Forall (fun b => Z_of_byte b < 128) h ->
    checkpw bytes h = Ok true ->
    exists c' es_trabajador,
      registrar_cliente hashpw gen_id foto es_admin None str_e random salt
        datos (Some c)
      = (Ok (Registrado "Cliente registrado."
               (RegistroCliente.correo_electronico datos)), Some c')
      /\ login checkpw now
           (LoginRequest.mk (RegistroCliente.correo_electronico datos)
              (RegistroCliente.password datos)) c'
         = (Ok (LoginExitoso (gen_id (usuarios (working c)))
                  (RegistroCliente.nombre datos) es_admin es_trabajador), c').
Proof.
  intros hashpw checkpw gen_id foto es_admin str_e random salt now datos c
    bytes h Hfresh Hbytes Hhash Hascii Hcheck.
  destruct (hash_round_trip Hascii) as [s [Hdec Henc]].
  assert (Henc_pw : encriptar_password hashpw salt
                      (RegistroCliente.password datos) = Ok s).
  { unfold encriptar_password. now rewrite Hbytes, Hhash. }
  rewrite (@registrar_cliente_ok hashpw gen_id foto es_admin None str_e
             random salt datos c s Hfresh Henc_pw).
  set (nuevo := Usuario.mk (gen_id (usuarios (working c)))
                  (RegistroCliente.nombre datos)
                  (RegistroCliente.apellidos datos)
                  (RegistroCliente.correo_electronico datos) s
                  (RegistroCliente.telefono datos) foto es_admin true
                  (Some (generar_codigo_verificacion random)) None).
  eexists. eexists. split; [reflexivity|].
  match goal with
  | |- login _ _ ?d ?c' = _ =>
      pose proof (@login_by_the_lock checkpw now d c' nuevo) as HL
  end.
  rewrite HL.
  - reflexivity.
  - cbn [LoginRequest.correo working].
    rewrite usuarios_por_correo_new by (try exact Hfresh; reflexivity).
    reflexivity.
  - reflexivity.
  - cbn [LoginRequest.password Usuario.password_hash nuevo].
    unfold verificar_password. now rewrite Hbytes, Henc.
Qed.

Lemma register_then_login_witness :
  let bytes := map byte_of_Z (str_of_string "abc123") in
  (existsb (fun u => String.eqb (Usuario.correo_electronico u)
                       (RegistroCliente.correo_electronico registro_demo))
     (usuarios (working conn_demo)) = false
   /\ password_bytes (RegistroCliente.password registro_demo) = Ok bytes
   /\ hashpw_plain bytes [] = Ok bytes
   /\ Forall (fun b => Z_of_byte b < 128) bytes
   /\ checkpw_plain bytes bytes = Ok true)
  /\ exists c' es_trabajador,
       registrar_cliente hashpw_plain usuario_id_demo None false None
         str_e_demo random_demo [] registro_demo (Some conn_demo)
       = (Ok (Registrado "Cliente registrado." "caro@example.com"), Some c')
       /\ login checkpw_plain 1000
            (LoginRequest.mk "caro@example.com" (str_of_string "abc123")) c'
          = (Ok (LoginExitoso "uuu" "Caro" false es_trabajador), c').
Proof.
  intro bytes.
  assert (Hascii : Forall (fun b => Z_of_byte b < 128) bytes)
    by (repeat constructor).
  split; [repeat split; try reflexivity; exact Hascii|].
  exact (@register_then_login hashpw_plain checkpw_plain usuario_id_demo None
           false str_e_demo random_demo [] 1000 registro_demo conn_demo
           bytes bytes eq_refl eq_refl eq_refl Hascii eq_refl).
Defined.
